(** * ewatercycle-hbv: configuration building and forcing ingestion

    A shallow embedding of [src/ewatercycle_HBV/model.py] and
    [src/ewatercycle_HBV/forcing.py], and the properties of the
    configuration builder, the parameter/state accessors and the
    forcing loader.

    Conventions.  A Python [str] is a Rocq [string]; each [ascii] stands
    for one code point below 256.  A Python [int] is a [Z], a Python
    [float] a binary64 [PrimFloat.float].  A [dict] is an association
    list in insertion order.  Exceptions are values of [exn]; a call
    that may raise returns a [result]. *)

From Stdlib Require Import ZArith String Ascii List Bool Lia.
From Stdlib Require Import DecimalString DecimalZ.
From Stdlib Require Import PrimFloat FloatOps SpecFloat.
From stdpp Require Import gmap strings list.
Import ListNotations.
Open Scope string_scope.

(* A decimal literal such as 0.3 denotes the nearest binary64, as it
   does in Python. *)
Set Warnings "-inexact-float".

(** ** The Python builtins the two modules use *)

Module Py.

(** Exceptions.  Those raised by the interpreter or by the repository
    carry what Python reports; [LibraryError] stands for an exception
    raised inside an external call (numpy, pandas, the operating
    system), tagged with the call it comes from. *)
Inductive exn : Type :=
| ValueError (msg : string)
| TypeError (msg : string)
| AttributeError (msg : string)
| KeyError (key : string)
| OverflowError (msg : string)
| LibraryError (origin : string).

Inductive result (A : Type) : Type :=
| Ok (a : A)
| Raise (e : exn).
Arguments Ok {A} a.
Arguments Raise {A} e.

Definition is_ValueError {A : Type} (r : result A) : bool :=
  match r with
  | Raise (ValueError _) => true
  | _ => false
  end.

(** What the code takes from outside the repository: the interpreter's
    [float.__repr__] (the shortest decimal that reads back as the same
    binary64), pathlib's [/] on a directory and a name, whether the
    operating system lets a path be opened for writing, and what
    [pd.Timestamp] makes of a string that is not a plain date of the
    years every pandas holds (the year, month and day of the timestamp
    it returns, or the error it raises). *)
Class Platform : Type := {
  float_repr : float -> string;
  path_join : string -> string -> string;
  can_write : string -> bool;
  timestamp_other : string -> result (Z * Z * Z)
}.

(** Numbers: the elements of the [parameters] and [initial_storage]
    vectors. *)
Inductive pynum : Type :=
| PyInt (z : Z)
| PyFloat (f : float).

(** The values the configuration dict holds: a [str], or (between two
    assignments of [_make_cfg_file]) a [list] of numbers. *)
Inductive pyval : Type :=
| VStr (s : string)
| VList (l : list pynum).

(** [str(z)] for an [int]: decimal digits, with a leading minus sign for
    a negative number. *)
Definition str_int (z : Z) : string := NilZero.string_of_int (Z.to_int z).

(** [int(s)] on a decimal string as [str_int] writes it. *)
Definition parse_int (s : string) : option Z :=
  option_map Z.of_int (NilZero.int_of_string s).

(** The characters of the [str] of an [int] or a [float]: digits, the
    sign and exponent marks, the point, and the letters of [inf] and
    [nan]. *)
Definition numeric_char (c : ascii) : bool :=
  let n := nat_of_ascii c in
  ((48 <=? n) && (n <=? 57))%nat
  || Ascii.eqb c "-" || Ascii.eqb c "+" || Ascii.eqb c "."
  || Ascii.eqb c "e" || Ascii.eqb c "i" || Ascii.eqb c "n"
  || Ascii.eqb c "f" || Ascii.eqb c "a".

Fixpoint all_chars (p : ascii -> bool) (s : string) : bool :=
  match s with
  | EmptyString => true
  | String c s' => p c && all_chars p s'
  end.

(** The characters of comma-joined numeric tokens. *)
Definition plain_char (c : ascii) : bool := numeric_char c || Ascii.eqb c ",".

Definition is_numeric_token (s : string) : bool :=
  negb (String.eqb s "") && all_chars numeric_char s.

Definition no_sep (sep : ascii) (s : string) : bool :=
  all_chars (fun c => negb (Ascii.eqb c sep)) s.

(** [sep.join(l)]. *)
Fixpoint join (sep : string) (l : list string) : string :=
  match l with
  | [] => ""
  | [x] => x
  | x :: l' => x ++ sep ++ join sep l'
  end.

(** [s.split(sep)] for a one-character separator: every occurrence
    cuts, and the empty string gives one empty field. *)
Fixpoint split (sep : ascii) (s : string) : list string :=
  match s with
  | EmptyString => [""]
  | String c s' =>
      if Ascii.eqb c sep then "" :: split sep s'
      else match split sep s' with
           | [] => [String c ""]
           | t :: ts => String c t :: ts
           end
  end.

(** Iterating a [str] yields its one-character strings. *)
Fixpoint chars (s : string) : list string :=
  match s with
  | EmptyString => []
  | String c s' => String c "" :: chars s'
  end.

(** [zip(a, b)] stops at the shorter argument. *)
Definition zip {A B : Type} (a : list A) (b : list B) : list (A * B) :=
  combine a b.

(** A [dict] with [str] keys: insertion-ordered; assigning to a key that
    is present replaces the value in place, a new key goes last. *)
Definition dict (V : Type) : Type := list (string * V).

Fixpoint setitem {V : Type} (k : string) (v : V) (d : dict V) : dict V :=
  match d with
  | [] => [(k, v)]
  | (k', v') :: d' =>
      if String.eqb k' k then (k', v) :: d'
      else (k', v') :: setitem k v d'
  end.

Fixpoint getitem {V : Type} (k : string) (d : dict V) : option V :=
  match d with
  | [] => None
  | (k', v') :: d' => if String.eqb k' k then Some v' else getitem k d'
  end.

Definition keys {V : Type} (d : dict V) : list string := map fst d.

(** [dict(pairs)]: the pairs are inserted from left to right. *)
Definition dict_of {V : Type} (pairs : list (string * V)) : dict V :=
  fold_left (fun d kv => setitem (fst kv) (snd kv) d) pairs [].

(** [d.items()], in the order of the dict. *)
Definition items {V : Type} (d : dict V) : list (string * V) := d.

(** [str(el)] for a number, and the strings [str(el) for el in v]
    ranges over: the elements of a list, the characters of a string. *)
Definition str `{Platform} (el : pynum) : string :=
  match el with
  | PyInt z => str_int z
  | PyFloat f => float_repr f
  end.

Definition strs `{Platform} (v : pyval) : list string :=
  match v with
  | VList l => map str l
  | VStr s => chars s
  end.

(** [float.__repr__] writes nothing but the characters of a numeric
    token: the one fact about it the proofs rely on. *)
Class PlatformSpec (P : Platform) : Prop := {
  float_repr_numeric : forall f, is_numeric_token (float_repr f) = true
}.

(** [int(x)] on a float: truncation towards zero; [nan] and the
    infinities raise. *)
Definition int_of_float (x : float) : result Z :=
  match Prim2SF x with
  | S754_zero _ => Ok 0%Z
  | S754_infinity _ =>
      Raise (OverflowError "cannot convert float infinity to integer")
  | S754_nan => Raise (ValueError "cannot convert float NaN to integer")
  | S754_finite s m e =>
      let a := (if (0 <=? e)%Z then Z.pos m * 2 ^ e
                else Z.pos m / 2 ^ (- e))%Z in
      Ok (if s then (- a)%Z else a)
  end.

End Py.

(** ** [json.dumps(obj, indent=4)] on a dict of strings and number lists *)

Module Json.
Import Py.

Definition quote : ascii := "034"%char.
Definition backslash : ascii := "092"%char.
Definition newline : string := String "010"%char "".

Definition hex_digit (n : nat) : ascii :=
  nth n ["0"; "1"; "2"; "3"; "4"; "5"; "6"; "7"; "8"; "9";
         "a"; "b"; "c"; "d"; "e"; "f"]%char "0"%char.

(** One character of a string literal ([ensure_ascii] is on): the quote
    and the backslash are escaped, the five control characters with a
    short form take it, printable ASCII stands for itself, and every
    other code point becomes a four-digit lower-case hex escape. *)
Definition escape_char (c : ascii) : string :=
  let n := nat_of_ascii c in
  if (n =? 34)%nat then String backslash (String quote "")
  else if (n =? 92)%nat then String backslash (String backslash "")
  else if (n =? 10)%nat then String backslash "n"
  else if (n =? 13)%nat then String backslash "r"
  else if (n =? 9)%nat then String backslash "t"
  else if (n =? 12)%nat then String backslash "f"
  else if (n =? 8)%nat then String backslash "b"
  else if ((32 <=? n) && (n <=? 126))%nat then String c ""
  else String backslash
         ("u00" ++ String (hex_digit (n / 16)) (String (hex_digit (n mod 16)) "")).

Fixpoint escape (s : string) : string :=
  match s with
  | EmptyString => ""
  | String c s' => escape_char c ++ escape s'
  end.

Definition encode_str (s : string) : string :=
  String quote (escape s ++ String quote "").

(** A float: its [repr], except that JSON spells the three non-finite
    values its own way. *)
Definition encode_num `{Platform} (x : pynum) : string :=
  match x with
  | PyInt z => str_int z
  | PyFloat f =>
      if is_nan f then "NaN"
      else if is_infinity f
           then (if (f <? 0)%float then "-Infinity" else "Infinity")
           else float_repr f
  end.

Fixpoint indent (level : nat) : string :=
  match level with
  | O => ""
  | S l => "    " ++ indent l
  end.

(** A value at nesting depth [level]. *)
Definition encode_value `{Platform} (level : nat) (v : pyval) : string :=
  match v with
  | VStr s => encode_str s
  | VList [] => "[]"
  | VList l =>
      "[" ++ newline ++ indent (S level)
      ++ join ("," ++ newline ++ indent (S level)) (map encode_num l)
      ++ newline ++ indent level ++ "]"
  end.

Definition encode_item `{Platform} (kv : string * pyval) : string :=
  encode_str (fst kv) ++ ": " ++ encode_value 1 (snd kv).

Definition dumps `{Platform} (d : dict pyval) : string :=
  match d with
  | [] => "{}"
  | _ =>
      "{" ++ newline ++ indent 1
      ++ join ("," ++ newline ++ indent 1) (map encode_item d)
      ++ newline ++ "}"
  end.

(** *** Reading a document back

    A reader for JSON objects whose members are all strings (RFC 8259:
    white space, the two-character escapes, and four-digit hex escapes
    for the code points below 256), to state that a written document
    is well formed and what it holds.  It looks at one character at a
    time. *)

Inductive target : Type :=
| InKey
| InValue (key : string).

Inductive mode : Type :=
| Start
| Opened
| AfterComma
| AfterKey (key : string)
| BeforeValue (key : string)
| AfterValue
| Closed
| Bad
| Str (t : target) (acc : string)
| Esc (t : target) (acc : string)
| Hex (t : target) (acc : string) (ds : list nat).

Definition is_ws (c : ascii) : bool :=
  let n := nat_of_ascii c in
  ((n =? 32) || (n =? 9) || (n =? 10) || (n =? 13))%nat.

Definition hex_value (c : ascii) : option nat :=
  let n := nat_of_ascii c in
  if ((48 <=? n) && (n <=? 57))%nat then Some (n - 48)
  else if ((97 <=? n) && (n <=? 102))%nat then Some (n - 87)
  else if ((65 <=? n) && (n <=? 70))%nat then Some (n - 55)
  else None.

Definition push (acc : string) (c : ascii) : string := acc ++ String c "".

Definition reader : Type := mode * list (string * string).

Definition step (st : reader) (c : ascii) : reader :=
  let (m, ms) := st in
  let n := nat_of_ascii c in
  match m with
  | Start =>
      if is_ws c then (Start, ms)
      else if (n =? 123)%nat then (Opened, ms) else (Bad, ms)
  | Opened =>
      if is_ws c then (Opened, ms)
      else if (n =? 34)%nat then (Str InKey "", ms)
      else if (n =? 125)%nat then (Closed, ms) else (Bad, ms)
  | AfterComma =>
      if is_ws c then (AfterComma, ms)
      else if (n =? 34)%nat then (Str InKey "", ms) else (Bad, ms)
  | AfterKey k =>
      if is_ws c then (AfterKey k, ms)
      else if (n =? 58)%nat then (BeforeValue k, ms) else (Bad, ms)
  | BeforeValue k =>
      if is_ws c then (BeforeValue k, ms)
      else if (n =? 34)%nat then (Str (InValue k) "", ms) else (Bad, ms)
  | AfterValue =>
      if is_ws c then (AfterValue, ms)
      else if (n =? 44)%nat then (AfterComma, ms)
      else if (n =? 125)%nat then (Closed, ms) else (Bad, ms)
  | Closed => if is_ws c then (Closed, ms) else (Bad, ms)
  | Bad => (Bad, ms)
  | Str t acc =>
      if (n =? 34)%nat then
        match t with
        | InKey => (AfterKey acc, ms)
        | InValue k => (AfterValue, (ms ++ [(k, acc)])%list)
        end
      else if (n =? 92)%nat then (Esc t acc, ms)
      else if (n <? 32)%nat then (Bad, ms)
      else (Str t (push acc c), ms)
  | Esc t acc =>
      if (n =? 34)%nat then (Str t (push acc quote), ms)
      else if (n =? 92)%nat then (Str t (push acc backslash), ms)
      else if (n =? 47)%nat then (Str t (push acc "/"), ms)
      else if (n =? 98)%nat then (Str t (push acc "008"), ms)
      else if (n =? 102)%nat then (Str t (push acc "012"), ms)
      else if (n =? 110)%nat then (Str t (push acc "010"), ms)
      else if (n =? 114)%nat then (Str t (push acc "013"), ms)
      else if (n =? 116)%nat then (Str t (push acc "009"), ms)
      else if (n =? 117)%nat then (Hex t acc [], ms)
      else (Bad, ms)
  | Hex t acc ds =>
      match hex_value c with
      | None => (Bad, ms)
      | Some v =>
          match ds with
          | [a; b; d] =>
              let code := ((a * 16 + b) * 16 + d) * 16 + v in
              if (code <? 256)%nat then (Str t (push acc (ascii_of_nat code)), ms)
              else (Bad, ms)
          | _ => (Hex t acc (ds ++ [v])%list, ms)
          end
      end
  end.

Fixpoint run (st : reader) (s : string) : reader :=
  match s with
  | EmptyString => st
  | String c s' => run (step st c) s'
  end.

(** The members of the object, as a dict; [None] for a text that is not
    such an object. *)
Definition loads (s : string) : option (dict string) :=
  match run (Start, []) s with
  | (Closed, ms) => Some (dict_of ms)
  | _ => None
  end.

End Json.

(** ** [model.py]: the configuration builder and the accessors *)

Module Model.
Import Py.

Definition HBV_PARAMS : list string :=
  ["Imax"; "Ce"; "Sumax"; "Beta"; "Pmax"; "Tlag"; "Kf"; "Ks"; "FM"].

Definition HBV_STATES : list string :=
  ["Si"; "Su"; "Sf"; "Ss"; "Sp"].

(** The forcing object the model holds (a class of the framework): its
    [directory] may be unset, and [forcing[name]] may have no entry. *)
Record Forcing : Type := {
  directory : option string;
  filename : string -> option string
}.

(** The fields of an instance of [HBVMethods] that the methods read: the
    forcing and the configuration directory the framework gives it. *)
Record HBVMethods : Type := {
  forcing : Forcing;
  _cfg_dir : string
}.

(** The store a method of one instance works in.  The base class of the
    framework (a pydantic model, outside this repository) gives every
    instance its own copy of the class-body [_config], and no method
    rebinds [self._config]: every [self._config[...]] reads or assigns
    an item of that copy.  The store is the instance's [_config] and
    the files on disk. *)
Record world : Type := {
  _config : dict pyval;
  files : gmap string string
}.

(** The class-body value of [_config]: what the copy of a new instance
    holds. *)
Definition default_config : dict pyval :=
  [("precipitation_file", VStr "");
   ("potential_evaporation_file", VStr "");
   ("mean_temperature_file", VStr "");
   ("parameters", VStr "");
   ("initial_storage", VStr "")].

Definition config_keys : list string := keys default_config.

Definition initial_world (disk : gmap string string) : world :=
  {| _config := default_config; files := disk |}.

(** Methods run in the store and return or raise. *)
Definition M (A : Type) : Type := world -> world * result A.

Definition ret {A : Type} (a : A) : M A := fun w => (w, Ok a).

Definition raise {A : Type} (e : exn) : M A := fun w => (w, Raise e).

Definition bind {A B : Type} (m : M A) (k : A -> M B) : M B :=
  fun w =>
    match m w with
    | (w', Ok a) => k a w'
    | (w', Raise e) => (w', Raise e)
    end.

Notation "x <- m ;; k" := (bind m (fun x => k))
  (at level 100, m at next level, right associativity).
Notation "m ;; k" := (bind m (fun _ => k))
  (at level 100, right associativity).

(** [self._config[k] = v] *)
Definition config_set (k : string) (v : pyval) : M unit :=
  fun w => ({| _config := setitem k v (_config w); files := files w |}, Ok tt).

(** [self._config[k]] *)
Definition config_get (k : string) : M pyval :=
  fun w =>
    match getitem k (_config w) with
    | Some v => (w, Ok v)
    | None => (w, Raise (KeyError k))
    end.

Definition config_read : M (dict pyval) := fun w => (w, Ok (_config w)).

(** [with path.open(mode="w") as f: f.write(text)] *)
Definition write_text `{Platform} (path text : string) : M unit :=
  fun w =>
    if can_write path
    then ({| _config := _config w; files := <[path := text]> (files w) |}, Ok tt)
    else (w, Raise (LibraryError "open")).

(** [str(self.forcing.directory / self.forcing[name])]: the subscript is
    evaluated before the division, and [None / str] is a [TypeError]. *)
Definition forcing_path `{Platform} (self : HBVMethods) (name : string) : M string :=
  match filename (forcing self) name with
  | None => raise (KeyError name)
  | Some file =>
      match directory (forcing self) with
      | None =>
          raise (TypeError
                   "unsupported operand type(s) for /: 'NoneType' and 'str'")
      | Some dir => ret (path_join dir file)
      end
  end.

Definition missing_parameters_msg : string :=
  "The model needs the parameters argument, consisting of 9 parameters;"
  ++ Json.newline ++ "   [Imax, Ce, Sumax, Beta, Pmax, Tlag, Kf, Ks, FM]".

(** [HBVMethods._make_cfg_file(self, **kwargs)] *)
Definition _make_cfg_file `{Platform} (self : HBVMethods)
    (kwargs : gmap string (list pynum)) : M string :=
  match kwargs !! "parameters" with
  | None => raise (ValueError missing_parameters_msg)
  | Some parameters =>
      if negb (length parameters =? 9)%nat
      then raise (ValueError "Incorrect number of parameters provided.")
      else
        config_set "parameters" (VList parameters) ;;
        match kwargs !! "initial_storage" with
        | Some initial_storage =>
            if negb (length initial_storage =? 5)%nat
            then raise (ValueError "The model needs 5 initial storage terms.")
            else config_set "initial_storage" (VList initial_storage)
        | None =>
            config_set "initial_storage"
              (VList [PyInt 0; PyInt 0; PyInt 0; PyInt 0; PyInt 0])
        end ;;
        st <- config_get "initial_storage" ;;
        config_set "initial_storage" (VStr (join "," (strs st))) ;;
        ps <- config_get "parameters" ;;
        config_set "parameters" (VStr (join "," (strs ps))) ;;
        pr <- forcing_path self "pr" ;;
        config_set "precipitation_file" (VStr pr) ;;
        pev <- forcing_path self "evspsblpot" ;;
        config_set "potential_evaporation_file" (VStr pev) ;;
        tas <- forcing_path self "tas" ;;
        config_set "mean_temperature_file" (VStr tas) ;;
        let config_file := path_join (_cfg_dir self) "HBV_config.json" in
        cfg <- config_read ;;
        write_text config_file (Json.dumps cfg) ;;
        ret config_file
  end.

(** [dict(zip(names, self._config[key].split(','))).items()] *)
Definition name_items (names : list string) (key : string)
  : M (list (string * string)) :=
  v <- config_get key ;;
  match v with
  | VStr s => ret (items (dict_of (zip names (split "," s))))
  | VList _ => raise (AttributeError "'list' object has no attribute 'split'")
  end.

(** The [parameters] property, read in the store of the instance. *)
Definition parameters (self : HBVMethods) : M (list (string * string)) :=
  name_items HBV_PARAMS "parameters".

(** The [states] property, read in the store of the instance. *)
Definition states (self : HBVMethods) : M (list (string * string)) :=
  name_items HBV_STATES "initial_storage".

(** The stores an instance can be in: the class-body configuration with
    any disk, and whatever a call of [_make_cfg_file] leaves behind,
    with any arguments, whatever the forcing and the directory of the
    instance are at that call, returning or raising. *)
Inductive reachable `{Platform} : world -> Prop :=
| reachable_initial (disk : gmap string string) :
    reachable (initial_world disk)
| reachable_call (w : world) (self : HBVMethods)
    (kwargs : gmap string (list pynum)) :
    reachable w -> reachable (fst (_make_cfg_file self kwargs w)).

(** Lines 96 to 111 of [_make_cfg_file] on their own (the three paths,
    the dump, the write, the return), to state what they do once the two
    vectors have been stored as strings. *)
Definition resolve_and_write `{Platform} (self : HBVMethods) : M string :=
  pr <- forcing_path self "pr" ;;
  config_set "precipitation_file" (VStr pr) ;;
  pev <- forcing_path self "evspsblpot" ;;
  config_set "potential_evaporation_file" (VStr pev) ;;
  tas <- forcing_path self "tas" ;;
  config_set "mean_temperature_file" (VStr tas) ;;
  let config_file := path_join (_cfg_dir self) "HBV_config.json" in
  cfg <- config_read ;;
  write_text config_file (Json.dumps cfg) ;;
  ret config_file.

(** The storage vector the call works with: the one given, or the five
    zeros of line 90. *)
Definition storage_or_default (kwargs : gmap string (list pynum)) : list pynum :=
  match kwargs !! "initial_storage" with
  | Some ss => ss
  | None => [PyInt 0; PyInt 0; PyInt 0; PyInt 0; PyInt 0]
  end.

(** The forcing has a directory and the three files, and the
    configuration file can be opened for writing. *)
Definition environment_ready `{Platform} (self : HBVMethods) : bool :=
  match directory (forcing self),
        filename (forcing self) "pr",
        filename (forcing self) "evspsblpot",
        filename (forcing self) "tas" with
  | Some _, Some _, Some _, Some _ =>
      can_write (path_join (_cfg_dir self) "HBV_config.json")
  | _, _, _, _ => false
  end.

(** The validation of the contract, in the spec's words: [parameters]
    is present with exactly 9 values, and [initial_storage] is absent or
    has exactly 5. *)
Definition valid_kwargs (kwargs : gmap string (list pynum)) : bool :=
  match kwargs !! "parameters" with
  | None => false
  | Some ps =>
      (length ps =? 9)%nat
      && match kwargs !! "initial_storage" with
         | None => true
         | Some ss => (length ss =? 5)%nat
         end
  end.

(** The configuration document of the contract: a JSON object of the
    five keys, one per line, indented by four spaces. *)
Definition config_document (pr pev tas params storage : string) : string :=
  "{" ++ Json.newline
  ++ "    " ++ Json.encode_str "precipitation_file" ++ ": "
  ++ Json.encode_str pr ++ "," ++ Json.newline
  ++ "    " ++ Json.encode_str "potential_evaporation_file" ++ ": "
  ++ Json.encode_str pev ++ "," ++ Json.newline
  ++ "    " ++ Json.encode_str "mean_temperature_file" ++ ": "
  ++ Json.encode_str tas ++ "," ++ Json.newline
  ++ "    " ++ Json.encode_str "parameters" ++ ": "
  ++ String Json.quote (params ++ String Json.quote "") ++ "," ++ Json.newline
  ++ "    " ++ Json.encode_str "initial_storage" ++ ": "
  ++ String Json.quote (storage ++ String Json.quote "") ++ Json.newline
  ++ "}".

(** *** Several instances

    Each instance has its own configuration, under its identity; the
    files on disk are common to all.  An instance that has assigned
    nothing yet holds its copy of the class-body value. *)
Record instance : Type := {
  ident : nat;
  fields : HBVMethods
}.

Record system : Type := {
  configs : gmap nat (dict pyval);
  disk : gmap string string
}.

Definition fresh_system (files0 : gmap string string) : system :=
  {| configs := ∅; disk := files0 |}.

Definition config_of (o : instance) (s : system) : dict pyval :=
  match configs s !! ident o with
  | Some cfg => cfg
  | None => default_config
  end.

(** The store the methods of [o] work in, and the system once a method
    of [o] has left the store [w]. *)
Definition view (o : instance) (s : system) : world :=
  {| _config := config_of o s; files := disk s |}.

Definition put (o : instance) (s : system) (w : world) : system :=
  {| configs := <[ident o := _config w]> (configs s); disk := files w |}.

(** The method [_make_cfg_file] and the accessors [parameters] and
    [states] of the instance [o]. *)
Definition call_make_cfg_file `{Platform} (o : instance)
    (kwargs : gmap string (list pynum)) (s : system) : system * result string :=
  let r := _make_cfg_file (fields o) kwargs (view o s) in
  (put o s (fst r), snd r).

Definition instance_parameters (o : instance) (s : system)
  : result (list (string * string)) :=
  snd (parameters (fields o) (view o s)).

Definition instance_states (o : instance) (s : system)
  : result (list (string * string)) :=
  snd (states (fields o) (view o s)).

(** The shapes the entries take between calls.  The storage entry is a
    string: the empty one of the class body or five joined tokens.  The
    parameters entry is such a string of nine tokens, or the list that
    line 81 stores and line 94 has not yet replaced. *)
Definition storage_entry `{Platform} (v : pyval) : Prop :=
  v = VStr ""
  \/ exists l, length l = 5 /\ v = VStr (join "," (map str l)).

Definition parameters_entry `{Platform} (v : pyval) : Prop :=
  v = VStr ""
  \/ (exists l, length l = 9 /\ v = VStr (join "," (map str l)))
  \/ (exists l, length l = 9 /\ v = VList l).

Definition config_shape `{Platform} (cfg : dict pyval) : Prop :=
  keys cfg = config_keys
  /\ (exists v, getitem "parameters" cfg = Some v /\ parameters_entry v)
  /\ (exists v, getitem "initial_storage" cfg = Some v /\ storage_entry v)
  /\ (forall k,
        In k ["precipitation_file"; "potential_evaporation_file";
              "mean_temperature_file"] ->
        exists s, getitem k cfg = Some (VStr s)).

(** The configuration a returning call leaves, from the forcing
    directory, the three file names and the two vectors. *)
Definition final_config `{Platform} (dir f_pr f_pev f_tas : string)
    (ps ss : list pynum) : dict pyval :=
  [("precipitation_file", VStr (path_join dir f_pr));
   ("potential_evaporation_file", VStr (path_join dir f_pev));
   ("mean_temperature_file", VStr (path_join dir f_tas));
   ("parameters", VStr (join "," (map str ps)));
   ("initial_storage", VStr (join "," (map str ss)))].

End Model.

(** ** [forcing.py]: loading the forcing file *)

Module Forcing.
Import Py.

(** The fields of [HBVForcing] that [to_xarray] reads; [forcing_file]
    defaults to ["forcing.txt"]. *)
Record HBVForcing : Type := {
  directory : option string;
  forcing_file : option string
}.

(** What [np.loadtxt] returns: a 2-D array for a file of several rows
    and columns, a 1-D array for a single row or column or no data. *)
Inductive ndarray : Type :=
| Array1 (v : list float)
| Array2 (rows : list (list float)).

Record Timestamp : Type := {
  year : Z;
  month : Z;
  day : Z
}.

(** A data frame: column labels, the rows of values, and the index,
    either the default positions or timestamps under a name. *)
Inductive Index : Type :=
| RangeIndex (n : nat)
| DatetimeIndex (name : option string) (stamps : list Timestamp).

Record DataFrame : Type := {
  columns : list string;
  values : list (list float);
  index : Index
}.

(** An xarray dataset built from a frame: the index becomes the
    coordinate, every column a data variable along it. *)
Record Dataset : Type := {
  coord_name : option string;
  coord : list Timestamp;
  data_vars : list (string * list float);
  attrs : list (string * string)
}.

Definition names : list string := ["year"; "month"; "day"; "pr"; "pev"].

(** [pd.DataFrame(array, columns=names)]: the array must have one
    column per name; a 1-D array counts as a single column. *)
Definition make_DataFrame (a : ndarray) (cols : list string) : result DataFrame :=
  match a with
  | Array1 _ => Raise (LibraryError "pandas.DataFrame")
  | Array2 rows =>
      if forallb (fun r => (length r =? length cols)%nat) rows
      then Ok {| columns := cols; values := rows;
                 index := RangeIndex (length rows) |}
      else Raise (LibraryError "pandas.DataFrame")
  end.

(** [x.label] on a row [x] of the frame. *)
Definition row_attr (cols : list string) (row : list float) (label : string)
  : result float :=
  match getitem label (zip cols row) with
  | Some v => Ok v
  | None => Raise (AttributeError label)
  end.

Definition is_leap (y : Z) : bool :=
  ((y mod 4 =? 0) && negb (y mod 100 =? 0) || (y mod 400 =? 0))%Z.

Definition days_in_month (y m : Z) : Z :=
  if (m =? 2)%Z then (if is_leap y then 29 else 28)%Z
  else if ((m =? 4) || (m =? 6) || (m =? 9) || (m =? 11))%Z then 30%Z
  else 31%Z.

Definition is_digit (c : ascii) : bool :=
  let n := nat_of_ascii c in ((48 <=? n) && (n <=? 57))%nat.

Definition digits_field (s : string) : option Z :=
  if negb (String.eqb s "") && all_chars is_digit s then parse_int s else None.

(** A month and a day of the calendar, between 1677-09-22 and
    2262-04-11: the dates every version of pandas holds as a
    timestamp. *)
Definition date_in_window (y m d : Z) : bool :=
  ((1 <=? m) && (m <=? 12)
   && (1 <=? d) && (d <=? days_in_month y m)
   && (16770922 <=? y * 10000 + m * 100 + d)
   && (y * 10000 + m * 100 + d <=? 22620411))%Z.

(** [pd.Timestamp(s)].  When [s] is exactly what the f-string of
    [to_xarray] writes for three integers that form a date of the
    window, it is that date at midnight.  What it does on any other
    string (other years, two-digit years, a month 13, signs, padding)
    is pandas's own and is left to the platform. *)
Definition pd_Timestamp `{Platform} (s : string) : result Timestamp :=
  let other :=
    match timestamp_other s with
    | Ok (y, m, d) => Ok {| year := y; month := m; day := d |}
    | Raise e => Raise e
    end in
  match split "-" s with
  | [ys; ms; ds] =>
      match digits_field ys, digits_field ms, digits_field ds with
      | Some y, Some m, Some d =>
          if String.eqb s (str_int y ++ "-" ++ str_int m ++ "-" ++ str_int d)
             && date_in_window y m d
          then Ok {| year := y; month := m; day := d |}
          else other
      | _, _, _ => other
      end
  | _ => other
  end.

Definition rbind {A B : Type} (r : result A) (k : A -> result B) : result B :=
  match r with
  | Ok a => k a
  | Raise e => Raise e
  end.

Notation "x <-- r ;;; k" := (rbind r (fun x => k))
  (at level 100, r at next level, right associativity).

(** The lambda of [df_in.apply(..., axis=1)]:
    [pd.Timestamp(f'{int(x.year)}-{int(x.month)}-{int(x.day)}')]. *)
Definition row_stamp `{Platform} (cols : list string) (x : list float)
  : result Timestamp :=
  fy <-- row_attr cols x "year" ;;;
  y <-- int_of_float fy ;;;
  fm <-- row_attr cols x "month" ;;;
  m <-- int_of_float fm ;;;
  fd <-- row_attr cols x "day" ;;;
  d <-- int_of_float fd ;;;
  pd_Timestamp (str_int y ++ "-" ++ str_int m ++ "-" ++ str_int d).

Fixpoint apply_rows {A B : Type} (f : A -> result B) (l : list A)
  : result (list B) :=
  match l with
  | [] => Ok []
  | a :: l' =>
      b <-- f a ;;;
      bs <-- apply_rows f l' ;;;
      Ok (b :: bs)
  end.

Definition mem (s : string) (l : list string) : bool :=
  existsb (String.eqb s) l.

(** [df.drop(columns=labels, inplace=True)]: every label must be a
    column; the columns left keep their order. *)
Definition drop_columns (labels : list string) (df : DataFrame) : result DataFrame :=
  if forallb (fun l => mem l (columns df)) labels
  then
    let keep (row : list float) : list float :=
      map snd (filter (fun p => negb (mem (fst p) labels)) (zip (columns df) row)) in
    Ok {| columns := filter (fun c => negb (mem c labels)) (columns df);
          values := map keep (values df);
          index := index df |}
  else Raise (KeyError "not found in axis").

(** Column number [i] of the rows. *)
Definition column (i : nat) (rows : list (list float)) : list float :=
  map (fun r => nth i r 0%float) rows.

(** [xr.Dataset(data_vars=df, attrs=a)] *)
Definition make_Dataset (df : DataFrame) (a : list (string * string)) : Dataset :=
  {| coord_name := match index df with
                   | DatetimeIndex n _ => n
                   | RangeIndex _ => None
                   end;
     coord := match index df with
              | DatetimeIndex _ ts => ts
              | RangeIndex _ => []
              end;
     data_vars := map (fun ic => (snd ic, column (fst ic) (values df)))
                      (zip (seq 0 (length (columns df))) (columns df));
     attrs := a |}.

(** [HBVForcing.to_xarray(self)], given what [np.loadtxt] finds at each
    path. *)
Definition to_xarray `{Platform} (loadtxt : string -> result ndarray)
    (self : HBVForcing) : result Dataset :=
  match directory self, forcing_file self with
  | Some dir, Some file =>
      let fn := path_join dir file in
      forcing <-- loadtxt fn ;;;
      df_in <-- make_DataFrame forcing names ;;;
      stamps <-- apply_rows (row_stamp (columns df_in)) (values df_in) ;;;
      let df_in := {| columns := columns df_in; values := values df_in;
                      index := DatetimeIndex None stamps |} in
      df_in <-- drop_columns ["year"; "month"; "day"] df_in ;;;
      let df_in := {| columns := columns df_in; values := values df_in;
                      index := match index df_in with
                               | DatetimeIndex _ ts => DatetimeIndex (Some "time") ts
                               | RangeIndex n => RangeIndex n
                               end |} in
      Ok (make_Dataset df_in
            [("title", "HBV forcing data");
             ("history",
              "Created by ewatercycle_HBV.forcing.HBVForcing.to_xarray()")])
  | _, _ => Raise (ValueError "Directory or forcing_file is not set")
  end.

(** Row [x] of the file carries the date [t] of the window: it has five
    values, and the first three are finite and truncate to the year,
    the month and the day of [t], a date between 1677-09-22 and
    2262-04-11. *)
Definition dated_in_window (x : list float) (t : Timestamp) : Prop :=
  exists fy fm fd pr pev,
    x = [fy; fm; fd; pr; pev]
    /\ int_of_float fy = Ok (year t)
    /\ int_of_float fm = Ok (month t)
    /\ int_of_float fd = Ok (day t)
    /\ date_in_window (year t) (month t) (day t) = true.

(** Row [x] is stamped [t]: it has five values, the first three convert
    to integers, and [pd.Timestamp] returns [t] for their f-string,
    whatever the year. *)
Definition stamped `{Platform} (x : list float) (t : Timestamp) : Prop :=
  exists fy fm fd pr pev y m d,
    x = [fy; fm; fd; pr; pev]
    /\ int_of_float fy = Ok y
    /\ int_of_float fm = Ok m
    /\ int_of_float fd = Ok d
    /\ pd_Timestamp (str_int y ++ "-" ++ str_int m ++ "-" ++ str_int d) = Ok t.

End Forcing.

(** ** A platform and inputs for the examples *)

Module Examples.
Import Py.

(** A [float.__repr__] for the examples: right on the floats listed,
    which are the only ones the examples print. *)
Definition example_float_repr (f : float) : string :=
  if (f =? 1.5)%float then "1.5"
  else if (f =? 0.5)%float then "0.5"
  else if (f =? 0)%float then "0.0"
  else if (f =? 100)%float then "100.0"
  else "nan".

#[export] Instance example_platform : Platform := {|
  float_repr := example_float_repr;
  path_join := fun dir file => dir ++ "/" ++ file;
  can_write := fun _ => true;
  timestamp_other := fun _ => Raise (LibraryError "pandas.Timestamp")
|}.

Definition example_forcing : Model.Forcing :=
  {| Model.directory := Some "/data/forcing";
     Model.filename := fun name => Some (name ++ ".nc") |}.

Definition model_A : Model.HBVMethods :=
  {| Model.forcing := example_forcing; Model._cfg_dir := "/run/a" |}.

Definition model_B : Model.HBVMethods :=
  {| Model.forcing := example_forcing; Model._cfg_dir := "/run/b" |}.

Definition instance_A : Model.instance :=
  {| Model.ident := 0; Model.fields := model_A |}.

Definition instance_B : Model.instance :=
  {| Model.ident := 1; Model.fields := model_B |}.

Definition nine : list pynum :=
  [PyInt 2; PyFloat 0.5; PyInt 100; PyFloat 1.5; PyInt 10;
   PyInt 4; PyFloat 0.5; PyInt (-1); PyFloat 1.5].

Definition five : list pynum :=
  [PyInt 0; PyFloat 100; PyInt 0; PyInt 5; PyFloat 0].

Definition kwargs_full : gmap string (list pynum) :=
  <["parameters" := nine]> (<["initial_storage" := five]> ∅).

Definition kwargs_other : gmap string (list pynum) :=
  <["parameters" := map PyInt [1; 2; 3; 4; 5; 6; 7; 8; 9]%Z]>
    (<["initial_storage" := map PyInt [10; 20; 30; 40; 50]%Z]> ∅).

Definition kwargs_no_storage : gmap string (list pynum) :=
  <["parameters" := nine]> ∅.

Definition kwargs_bad_storage : gmap string (list pynum) :=
  <["parameters" := nine]> (<["initial_storage" := [PyInt 1; PyInt 2]]> ∅).

(** The array [np.loadtxt] returns for the two-row forcing file. *)
Definition example_rows : Forcing.ndarray :=
  Forcing.Array2 [[2000; 1; 1; 1.5; 0.3]; [2000; 1; 2; 0.0; 0.5]]%float.

(** An instance whose forcing has no directory. *)
Definition model_unready : Model.HBVMethods :=
  {| Model.forcing := {| Model.directory := None;
                         Model.filename := fun name => Some (name ++ ".nc") |};
     Model._cfg_dir := "/run/c" |}.

(** A store whose strings have more and fewer fields than names. *)
Definition world_odd : Model.world :=
  {| Model._config :=
       [("precipitation_file", VStr ""); ("potential_evaporation_file", VStr "");
        ("mean_temperature_file", VStr "");
        ("parameters", VStr "1,2,3,4,5,6,7,8,9,10,11");
        ("initial_storage", VStr "7,8")];
     Model.files := ∅ |}.

(** A platform whose pandas also holds the first day of 1500. *)
Definition wide_platform : Platform := {|
  float_repr := example_float_repr;
  path_join := fun dir file => dir ++ "/" ++ file;
  can_write := fun _ => true;
  timestamp_other := fun s =>
    if String.eqb s "1500-1-1" then Ok (1500, 1, 1)%Z
    else Raise (LibraryError "pandas.Timestamp")
|}.

(** Rows out of order, with a repeated date, a negative precipitation
    and fractional date columns. *)
Definition unchecked_rows : list (list float) :=
  [[2001.9; 3; 1; -4; 0.5]; [2000; 2; 29.5; 1.5; 0];
   [2000; 2; 29; 100; 0.5]]%float.

End Examples.

(** * Properties *)

(** ** Strings, tokens and dicts *)

Module PyFacts.
Import Py.

Lemma all_chars_app (p : ascii -> bool) (s t : string) :
  all_chars p (s ++ t) = all_chars p s && all_chars p t.
Proof.
  induction s as [|c s IH]; simpl; [reflexivity|].
  rewrite IH. apply andb_assoc.
Qed.

Lemma all_chars_impl (p q : ascii -> bool) (s : string) :
  (forall c, p c = true -> q c = true) ->
  all_chars p s = true -> all_chars q s = true.
Proof.
  intros Hpq. induction s as [|c s IH]; simpl; [reflexivity|].
  intros [Hc Hs]%andb_true_iff. rewrite (Hpq c Hc). simpl. auto.
Qed.

Lemma append_assoc (s t u : string) : (s ++ t) ++ u = s ++ (t ++ u).
Proof.
  induction s as [|c s IH]; [reflexivity|].
  change (String c ((s ++ t) ++ u) = String c (s ++ (t ++ u))).
  f_equal. exact IH.
Qed.

Lemma all_chars_join (p : ascii -> bool) (sep : string) (l : list string) :
  all_chars p sep = true ->
  Forall (fun t => all_chars p t = true) l ->
  all_chars p (join sep l) = true.
Proof.
  intros Hsep. induction l as [|x l IH]; intros Hall; [reflexivity|].
  inversion Hall as [|? ? Hx Hl]; subst.
  destruct l as [|y l]; [exact Hx|].
  change (join sep (x :: y :: l)) with (x ++ sep ++ join sep (y :: l)).
  rewrite !all_chars_app, Hx, Hsep, (IH Hl). reflexivity.
Qed.

(** A field without separator is one field. *)
Lemma split_no_sep (sep : ascii) (x : string) :
  no_sep sep x = true -> split sep x = [x].
Proof.
  unfold no_sep. induction x as [|c x IH]; simpl; [reflexivity|].
  intros [Hc Hx]%andb_true_iff.
  apply negb_true_iff in Hc. rewrite Hc, (IH Hx). reflexivity.
Qed.

(** A field, a separator, and the rest. *)
Lemma split_field (sep : ascii) (x rest : string) :
  no_sep sep x = true ->
  split sep (x ++ String sep rest) = x :: split sep rest.
Proof.
  unfold no_sep. induction x as [|c x IH]; simpl.
  - intros _. rewrite Ascii.eqb_refl. reflexivity.
  - intros [Hc Hx]%andb_true_iff.
    apply negb_true_iff in Hc. rewrite Hc, (IH Hx). reflexivity.
Qed.

(** Splitting undoes joining, for at least one field and fields free of
    the separator. *)
Lemma split_join (sep : ascii) (l : list string) :
  l <> [] ->
  Forall (fun x => no_sep sep x = true) l ->
  split sep (join (String sep "") l) = l.
Proof.
  induction l as [|x l IH]; [congruence|].
  intros _ Hall. inversion Hall as [|? ? Hx Hl]; subst.
  destruct l as [|y l].
  - simpl. apply split_no_sep, Hx.
  - change (join (String sep "") (x :: y :: l))
      with (x ++ String sep (join (String sep "") (y :: l))).
    rewrite split_field by exact Hx.
    rewrite IH by (congruence || assumption). reflexivity.
Qed.

(** The empty list is the one that does not come back. *)
Lemma split_join_nil (sep : ascii) : split sep (join (String sep "") []) = [""].
Proof. reflexivity. Qed.

Lemma numeric_char_not_comma (c : ascii) :
  numeric_char c = true -> negb (Ascii.eqb c ",") = true.
Proof.
  destruct (Ascii.eqb_spec c ",") as [->|]; [discriminate|reflexivity].
Qed.

Lemma numeric_token_no_comma (s : string) :
  is_numeric_token s = true -> no_sep "," s = true.
Proof.
  unfold is_numeric_token, no_sep. intros [_ H]%andb_true_iff.
  revert H. apply all_chars_impl, numeric_char_not_comma.
Qed.

Lemma uint_digits_numeric (d : Decimal.uint) :
  all_chars numeric_char (NilEmpty.string_of_uint d) = true.
Proof. induction d; simpl; auto. Qed.

Lemma uint_digits_nonempty (d : Decimal.uint) :
  d <> Decimal.Nil -> NilEmpty.string_of_uint d <> "".
Proof. destruct d; simpl; congruence. Qed.

Lemma string_of_uint_numeric (d : Decimal.uint) :
  is_numeric_token (NilZero.string_of_uint d) = true.
Proof.
  unfold is_numeric_token. destruct d; try reflexivity;
    simpl; apply uint_digits_numeric.
Qed.

(** The [str] of an [int] is a numeric token. *)
Lemma str_int_numeric (z : Z) : is_numeric_token (str_int z) = true.
Proof.
  unfold str_int.
  destruct (Z.to_int z) as [d|d]; simpl.
  - apply string_of_uint_numeric.
  - pose proof (string_of_uint_numeric d) as H.
    unfold is_numeric_token in *. apply andb_true_iff in H as [_ H].
    simpl. exact H.
Qed.

(** An [int] reads back from its [str]. *)
Lemma parse_str_int (z : Z) : parse_int (str_int z) = Some z.
Proof.
  unfold parse_int, str_int.
  rewrite NilZero.isi.
  - simpl. f_equal. apply DecimalZ.of_to.
  - destruct z; simpl; try discriminate.
    intros [= H]. exact (DecimalPos.Unsigned.to_uint_nonnil _ H).
  - destruct z; simpl; try discriminate.
    intros [= H]. exact (DecimalPos.Unsigned.to_uint_nonnil _ H).
Qed.

(** The [str] of a number is a numeric token, so it holds no comma. *)
Lemma str_numeric `{PlatformSpec} (el : pynum) : is_numeric_token (str el) = true.
Proof. destruct el; simpl; [apply str_int_numeric | apply float_repr_numeric]. Qed.

Lemma strs_numeric `{PlatformSpec} (l : list pynum) :
  Forall (fun t => is_numeric_token t = true) (map str l).
Proof. apply Forall_map, Forall_forall. intros el _. apply str_numeric. Qed.

Lemma strs_no_comma `{PlatformSpec} (l : list pynum) :
  Forall (fun t => no_sep "," t = true) (map str l).
Proof.
  apply Forall_map, Forall_forall. intros el _.
  apply numeric_token_no_comma, str_numeric.
Qed.

(** Item assignment and lookup. *)
Lemma getitem_setitem_eq {V : Type} (k : string) (v : V) (d : dict V) :
  getitem k (setitem k v d) = Some v.
Proof.
  induction d as [|[k' v'] d IH]; simpl.
  - rewrite String.eqb_refl. reflexivity.
  - destruct (String.eqb k' k) eqn:E; simpl; rewrite E; auto.
Qed.

Lemma getitem_setitem_ne {V : Type} (k k' : string) (v : V) (d : dict V) :
  k <> k' -> getitem k' (setitem k v d) = getitem k' d.
Proof.
  intros Hne. induction d as [|[k0 v0] d IH]; simpl.
  - destruct (String.eqb_spec k k'); [contradiction|reflexivity].
  - destruct (String.eqb_spec k0 k) as [->|]; simpl.
    + destruct (String.eqb_spec k k'); [contradiction|reflexivity].
    + rewrite IH. reflexivity.
Qed.

Lemma keys_setitem_present {V : Type} (k : string) (v : V) (d : dict V) :
  In k (keys d) -> keys (setitem k v d) = keys d.
Proof.
  unfold keys. induction d as [|[k' v'] d IH]; simpl; [tauto|].
  intros Hin. destruct (String.eqb_spec k' k) as [->|Hne]; simpl; [reflexivity|].
  f_equal. apply IH. destruct Hin; [contradiction|assumption].
Qed.

Lemma setitem_fresh {V : Type} (k : string) (v : V) (d : dict V) :
  ~ In k (keys d) -> setitem k v d = (d ++ [(k, v)])%list.
Proof.
  unfold keys. induction d as [|[k' v'] d IH]; simpl; [reflexivity|].
  intros Hnin. destruct (String.eqb_spec k' k) as [->|Hne]; [tauto|].
  f_equal. apply IH. tauto.
Qed.

Lemma dict_of_from {V : Type} (pairs : list (string * V)) (d : dict V) :
  List.NoDup (keys (d ++ pairs)%list) ->
  fold_left (fun d kv => setitem (fst kv) (snd kv) d) pairs d = (d ++ pairs)%list.
Proof.
  revert d. induction pairs as [|[k v] pairs IH]; intros d Hnd; simpl.
  - rewrite app_nil_r. reflexivity.
  - assert (Hsplit : (d ++ (k, v) :: pairs = (d ++ [(k, v)]) ++ pairs)%list)
      by (rewrite <- app_assoc; reflexivity).
    rewrite setitem_fresh.
    + rewrite IH; [symmetry; exact Hsplit | rewrite <- Hsplit; exact Hnd].
    + unfold keys in *. rewrite map_app in Hnd. simpl in Hnd.
      apply NoDup_remove_2 in Hnd. intros Hin. apply Hnd.
      apply in_or_app. left. exact Hin.
Qed.

(** A dict built from pairs with distinct keys lists those pairs. *)
Lemma dict_of_distinct {V : Type} (pairs : list (string * V)) :
  List.NoDup (keys pairs) -> items (dict_of pairs) = pairs.
Proof. intros Hnd. unfold items, dict_of. rewrite dict_of_from; auto. Qed.

Lemma keys_zip {V : Type} (names : list string) (vals : list V) :
  length names = length vals -> keys (zip names vals) = names.
Proof.
  unfold keys, zip. revert vals.
  induction names as [|n names IH]; intros [|v vals]; simpl; try congruence.
  intros [= Hlen]. f_equal. auto.
Qed.

End PyFacts.

(** ** Written strings read back *)

Module JsonFacts.
Import Py PyFacts Json.

(** The reader takes the escape of a character for that character. *)
Lemma run_escape_char (c : ascii) (t : target) (acc rest : string)
    (ms : list (string * string)) :
  run (Str t acc, ms) (escape_char c ++ rest) = run (Str t (push acc c), ms) rest.
Proof.
  destruct c as [[] [] [] [] [] [] [] []]; reflexivity.
Qed.

Lemma run_escape (s : string) (t : target) (acc rest : string)
    (ms : list (string * string)) :
  run (Str t acc, ms) (escape s ++ rest) = run (Str t (acc ++ s), ms) rest.
Proof.
  revert acc. induction s as [|c s IH]; intros acc.
  - assert (Hacc : acc ++ "" = acc)
      by (clear; induction acc as [|a acc IHa]; [reflexivity|];
          change (String a (acc ++ "") = String a acc); f_equal; exact IHa).
    rewrite Hacc. reflexivity.
  - change (escape (String c s)) with (escape_char c ++ escape s).
    rewrite append_assoc, run_escape_char, IH.
    unfold push. rewrite append_assoc. reflexivity.
Qed.

(** A string literal, from just after its opening quote: in a key... *)
Lemma run_key (s rest : string) (ms : list (string * string)) :
  run (Str InKey "", ms) ((escape s ++ String quote "") ++ rest)
  = run (AfterKey s, ms) rest.
Proof. rewrite append_assoc, run_escape. reflexivity. Qed.

(** ...and in a value. *)
Lemma run_value (k s rest : string) (ms : list (string * string)) :
  run (Str (InValue k) "", ms) ((escape s ++ String quote "") ++ rest)
  = run (AfterValue, (ms ++ [(k, s)])%list) rest.
Proof. rewrite append_assoc, run_escape. reflexivity. Qed.

Lemma run_app (a b : string) (st : reader) :
  run st (a ++ b) = run (run st a) b.
Proof.
  revert st. induction a as [|c a IH]; intros st; [reflexivity|].
  change (run (step st c) (a ++ b) = run (run (step st c) a) b). apply IH.
Qed.

(** One member, at the start of the object or after a comma. *)
Lemma run_member (m : mode) (k v rest : string) (ms : list (string * string)) :
  m = Opened \/ m = AfterComma ->
  run (m, ms) (encode_str k ++ ": " ++ encode_str v ++ rest)
  = run (AfterValue, (ms ++ [(k, v)])%list) rest.
Proof.
  intros Hm. unfold encode_str.
  change (run (step (m, ms) quote)
            ((escape k ++ String quote "")
             ++ ": " ++ String quote (escape v ++ String quote "") ++ rest)
          = run (AfterValue, (ms ++ [(k, v)])%list) rest).
  replace (step (m, ms) quote) with (Str InKey "", ms)
    by (destruct Hm; subst; reflexivity).
  rewrite run_key.
  change (run (Str (InValue k) "", ms)
            ((escape v ++ String quote "") ++ rest)
          = run (AfterValue, (ms ++ [(k, v)])%list) rest).
  apply run_value.
Qed.

(** The members of a non-empty object, up to the closing brace. *)
Lemma run_members (l : list (string * string)) (m : mode)
    (ms : list (string * string)) :
  l <> [] ->
  m = Opened \/ m = AfterComma ->
  run (m, ms)
    (join ("," ++ newline ++ indent 1)
       (map (fun kv => encode_str (fst kv) ++ ": " ++ encode_str (snd kv)) l)
     ++ newline ++ "}")
  = (Closed, (ms ++ l)%list).
Proof.
  revert m ms. induction l as [|[k v] l IH]; intros m ms Hne Hm; [congruence|].
  destruct l as [|kv l].
  - cbn [map join fst snd]. rewrite append_assoc, append_assoc.
    rewrite run_member by exact Hm. reflexivity.
  - change (join ("," ++ newline ++ indent 1)
              (map (fun kv => encode_str (fst kv) ++ ": " ++ encode_str (snd kv))
                 ((k, v) :: kv :: l)))
      with ((encode_str k ++ ": " ++ encode_str v)
            ++ ("," ++ newline ++ indent 1)
            ++ join ("," ++ newline ++ indent 1)
                 (map (fun kv => encode_str (fst kv) ++ ": " ++ encode_str (snd kv))
                    (kv :: l))).
    rewrite !append_assoc. rewrite run_member by exact Hm.
    change (run (AfterComma, (ms ++ [(k, v)])%list)
              (join ("," ++ newline ++ indent 1)
                 (map (fun kv => encode_str (fst kv) ++ ": " ++ encode_str (snd kv))
                    (kv :: l))
               ++ newline ++ "}")
            = (Closed, (ms ++ (k, v) :: kv :: l)%list)).
    rewrite IH by (congruence || auto).
    rewrite <- app_assoc. reflexivity.
Qed.

(** [json.dumps] of a dict of strings reads back as those members. *)
Lemma loads_dumps `{Platform} (l : list (string * string)) :
  loads (dumps (map (fun kv => (fst kv, VStr (snd kv))) l)) = Some (dict_of l).
Proof.
  destruct l as [|kv l]; [reflexivity|].
  unfold loads, dumps.
  cbn [map]. rewrite map_map. cbn [map].
  change (run (Start, []) ("{" ++ newline ++ indent 1 ++ ?x))
    with (run (Opened, []) x).
  pose proof (run_members (kv :: l) Opened [] ltac:(congruence) ltac:(auto)) as H0.
  cbn [map] in H0. unfold encode_item, encode_value. cbn [fst snd].
  rewrite H0. reflexivity.
Qed.

End JsonFacts.

(** ** The configuration builder *)

Module ModelFacts.
Import Py Model PyFacts JsonFacts.

Ltac run :=
  unfold _make_cfg_file, resolve_and_write, name_items, forcing_path, bind,
    config_set, config_get, config_read, write_text, ret, raise in *;
  cbn [fst snd _config files] in *.

(* Case analysis on the innermost scrutinee, until no match is left. *)
Ltac split_cases :=
  repeat match goal with
         | |- context [match ?x with _ => _ end] =>
             lazymatch x with
             | context [match _ with _ => _ end] => fail
             | _ => let E := fresh "E" in destruct x eqn:E
             end; cbn beta iota; cbn [fst snd _config files]
         end.

Lemma keys_setitem_config {V : Type} (k : string) (v : V) (d : dict V) :
  keys d = config_keys -> In k config_keys -> keys (setitem k v d) = config_keys.
Proof.
  intros Hk Hin. rewrite keys_setitem_present; [exact Hk|]. rewrite Hk. exact Hin.
Qed.

Ltac keep_keys :=
  repeat (apply keys_setitem_config; [|simpl; tauto]); try assumption.

Section WithPlatform.
Context `{P : Platform}.

(** *** The three validation failures *)

Lemma make_cfg_missing (self : HBVMethods) kwargs (w : world) :
  kwargs !! "parameters" = None ->
  _make_cfg_file self kwargs w = (w, Raise (ValueError missing_parameters_msg)).
Proof. intros H. run. rewrite H. reflexivity. Qed.

Lemma make_cfg_wrong_count (self : HBVMethods) kwargs (w : world) ps :
  kwargs !! "parameters" = Some ps ->
  length ps <> 9 ->
  _make_cfg_file self kwargs w
  = (w, Raise (ValueError "Incorrect number of parameters provided.")).
Proof.
  intros H Hlen. run. rewrite H.
  apply Nat.eqb_neq in Hlen. rewrite Hlen. reflexivity.
Qed.

Lemma make_cfg_wrong_storage (self : HBVMethods) kwargs (w : world) ps ss :
  kwargs !! "parameters" = Some ps ->
  length ps = 9 ->
  kwargs !! "initial_storage" = Some ss ->
  length ss <> 5 ->
  _make_cfg_file self kwargs w
  = ({| _config := setitem "parameters" (VList ps) (_config w);
        files := files w |},
     Raise (ValueError "The model needs 5 initial storage terms.")).
Proof.
  intros H Hlen Hs Hslen. run. rewrite H, Hs.
  apply Nat.eqb_eq in Hlen. apply Nat.eqb_neq in Hslen.
  rewrite Hlen, Hslen. reflexivity.
Qed.

(** *** A call that passes validation *)

(** The configuration once both vectors are stored as strings (after
    line 94). *)
Lemma make_cfg_valid (self : HBVMethods) kwargs (w : world) ps :
  kwargs !! "parameters" = Some ps ->
  valid_kwargs kwargs = true ->
  _make_cfg_file self kwargs w
  = resolve_and_write self
      {| _config :=
           setitem "parameters" (VStr (join "," (map str ps)))
             (setitem "initial_storage"
                (VStr (join "," (map str (storage_or_default kwargs))))
                (setitem "initial_storage" (VList (storage_or_default kwargs))
                   (setitem "parameters" (VList ps) (_config w))));
         files := files w |}.
Proof.
  intros H Hv. unfold valid_kwargs, storage_or_default in *. rewrite H in Hv.
  apply andb_true_iff in Hv as [Hlen Hs].
  unfold _make_cfg_file. rewrite H, Hlen. cbn [negb].
  destruct (kwargs !! "initial_storage") as [ss|] eqn:Es.
  - rewrite Hs. cbn [negb].
    unfold bind, config_set, config_get. cbn [_config files].
    rewrite getitem_setitem_eq. cbn [_config files strs].
    rewrite getitem_setitem_ne by discriminate.
    rewrite getitem_setitem_ne by discriminate.
    rewrite getitem_setitem_eq. reflexivity.
  - unfold bind, config_set, config_get. cbn [_config files].
    rewrite getitem_setitem_eq. cbn [_config files strs].
    rewrite getitem_setitem_ne by discriminate.
    rewrite getitem_setitem_ne by discriminate.
    rewrite getitem_setitem_eq. reflexivity.
Qed.

(** Lines 96 to 111 never report a validation failure, leave the two
    vector entries alone, and touch the disk only when they return. *)
Lemma resolve_and_write_no_ValueError (self : HBVMethods) (w : world) :
  is_ValueError (snd (resolve_and_write self w)) = false.
Proof. run. split_cases; reflexivity. Qed.

Lemma resolve_and_write_keeps (self : HBVMethods) (w : world) (k : string) :
  k = "parameters" \/ k = "initial_storage" ->
  getitem k (_config (fst (resolve_and_write self w))) = getitem k (_config w).
Proof.
  intros Hk. run. split_cases; cbn [fst _config];
    repeat (rewrite getitem_setitem_ne by (destruct Hk; subst; discriminate));
    reflexivity.
Qed.

Lemma resolve_and_write_raise (self : HBVMethods) (w : world) e :
  snd (resolve_and_write self w) = Raise e ->
  files (fst (resolve_and_write self w)) = files w.
Proof. run. split_cases; cbn [fst snd files]; congruence. Qed.

Lemma resolve_and_write_ok (self : HBVMethods) (w w' : world) p :
  resolve_and_write self w = (w', Ok p) ->
  exists pr pev tas,
    p = path_join (_cfg_dir self) "HBV_config.json"
    /\ _config w'
       = setitem "mean_temperature_file" (VStr tas)
           (setitem "potential_evaporation_file" (VStr pev)
              (setitem "precipitation_file" (VStr pr) (_config w)))
    /\ files w' = <[p := Json.dumps (_config w')]> (files w).
Proof.
  run. split_cases; intros [= <- <-]. cbn [_config files].
  eexists _, _, _. repeat split; reflexivity.
Qed.

Lemma resolve_and_write_ready (self : HBVMethods) (w : world) :
  environment_ready self = true ->
  snd (resolve_and_write self w)
  = Ok (path_join (_cfg_dir self) "HBV_config.json").
Proof.
  unfold environment_ready. run.
  destruct (directory (forcing self)); [|discriminate].
  destruct (filename (forcing self) "pr"); [|discriminate].
  destruct (filename (forcing self) "evspsblpot"); [|discriminate].
  destruct (filename (forcing self) "tas"); [|discriminate].
  intros ->. reflexivity.
Qed.

(** *** Reading the accessors *)

(** What an accessor returns when the entry is a joined string of as
    many comma-free tokens as there are names. *)
Lemma accessor_reads (names toks : list string) (key : string) (w : world) :
  getitem key (_config w) = Some (VStr (join "," toks)) ->
  toks <> [] ->
  Forall (fun t => no_sep "," t = true) toks ->
  length names = length toks ->
  List.NoDup names ->
  name_items names key w = (w, Ok (zip names toks)).
Proof.
  intros Hget Hne Hsep Hlen Hnd. run. rewrite Hget.
  change (join "," toks) with (join (String "," "") toks).
  rewrite split_join by assumption.
  rewrite dict_of_distinct; [reflexivity|].
  rewrite keys_zip by assumption. exact Hnd.
Qed.

Lemma HBV_PARAMS_distinct : List.NoDup HBV_PARAMS.
Proof.
  unfold HBV_PARAMS.
  repeat (constructor; [simpl; intuition discriminate|]). constructor.
Qed.

Lemma HBV_STATES_distinct : List.NoDup HBV_STATES.
Proof.
  unfold HBV_STATES.
  repeat (constructor; [simpl; intuition discriminate|]). constructor.
Qed.

Lemma nonempty_of_length {A : Type} (l : list A) (n : nat) :
  length l = S n -> l <> [].
Proof. destruct l; simpl; congruence. Qed.

Lemma valid_kwargs_storage kwargs ps :
  kwargs !! "parameters" = Some ps ->
  valid_kwargs kwargs = true ->
  length ps = 9 /\ length (storage_or_default kwargs) = 5.
Proof.
  unfold valid_kwargs, storage_or_default. intros ->.
  intros [Hp Hs]%andb_true_iff. apply Nat.eqb_eq in Hp. split; [exact Hp|].
  destruct (kwargs !! "initial_storage"); [apply Nat.eqb_eq, Hs|reflexivity].
Qed.

(** After a call that passes validation, whether or not the rest of it
    returns, the instance reads the two vectors of that call. *)
Lemma accessors_after_valid `{!PlatformSpec P}
    (self : HBVMethods) kwargs (w : world) ps :
  kwargs !! "parameters" = Some ps ->
  valid_kwargs kwargs = true ->
  let w' := fst (_make_cfg_file self kwargs w) in
  parameters self w' = (w', Ok (zip HBV_PARAMS (map str ps)))
  /\ states self w'
     = (w', Ok (zip HBV_STATES (map str (storage_or_default kwargs)))).
Proof.
  intros Hps Hv.
  destruct (valid_kwargs_storage _ _ Hps Hv) as [Hlen Hslen].
  rewrite (make_cfg_valid self kwargs w ps Hps Hv).
  cbv zeta. split; unfold parameters, states.
  - apply accessor_reads.
    + rewrite resolve_and_write_keeps by auto. cbn [_config].
      apply getitem_setitem_eq.
    + apply (nonempty_of_length _ 8). rewrite length_map. exact Hlen.
    + apply strs_no_comma.
    + rewrite length_map, Hlen. reflexivity.
    + apply HBV_PARAMS_distinct.
  - apply accessor_reads.
    + rewrite resolve_and_write_keeps by auto. cbn [_config].
      rewrite getitem_setitem_ne by discriminate.
      apply getitem_setitem_eq.
    + apply (nonempty_of_length _ 4). rewrite length_map. exact Hslen.
    + apply strs_no_comma.
    + rewrite length_map, Hslen. reflexivity.
    + apply HBV_STATES_distinct.
Qed.

(** The outcome of the validation alone. *)
Lemma validation_outcome (self : HBVMethods) kwargs (w : world) :
  is_ValueError (snd (_make_cfg_file self kwargs w)) = negb (valid_kwargs kwargs).
Proof.
  destruct (valid_kwargs kwargs) eqn:Hv.
  - unfold valid_kwargs in Hv.
    destruct (kwargs !! "parameters") as [ps|] eqn:Hps; [|discriminate].
    assert (Hv' : valid_kwargs kwargs = true)
      by (unfold valid_kwargs; rewrite Hps; exact Hv).
    rewrite (make_cfg_valid self kwargs w ps Hps Hv').
    apply resolve_and_write_no_ValueError.
  - unfold valid_kwargs in Hv.
    destruct (kwargs !! "parameters") as [ps|] eqn:Hps.
    + destruct (Nat.eqb_spec (length ps) 9) as [Hlen|Hlen].
      * destruct (kwargs !! "initial_storage") as [ss|] eqn:Hss;
          [|discriminate].
        cbn [andb] in Hv. apply Nat.eqb_neq in Hv.
        rewrite (make_cfg_wrong_storage self kwargs w ps ss) by assumption.
        reflexivity.
      * rewrite (make_cfg_wrong_count self kwargs w ps) by assumption.
        reflexivity.
    + rewrite make_cfg_missing by assumption. reflexivity.
Qed.

(** *** The configuration dict and the document *)

(** Every call assigns to the five keys of the class body only. *)
Lemma make_cfg_keeps_keys (self : HBVMethods) kwargs (w : world) :
  keys (_config w) = config_keys ->
  keys (_config (fst (_make_cfg_file self kwargs w))) = config_keys.
Proof.
  intros Hk. destruct (valid_kwargs kwargs) eqn:Hv.
  - assert (Hv' := Hv). unfold valid_kwargs in Hv.
    destruct (kwargs !! "parameters") as [ps|] eqn:Hps; [|discriminate].
    rewrite (make_cfg_valid self kwargs w ps Hps Hv').
    run. split_cases; keep_keys.
  - unfold valid_kwargs in Hv.
    destruct (kwargs !! "parameters") as [ps|] eqn:Hps.
    + destruct (Nat.eqb_spec (length ps) 9) as [Hlen|Hlen].
      * destruct (kwargs !! "initial_storage") as [ss|] eqn:Hss; [|discriminate].
        cbn [andb] in Hv. apply Nat.eqb_neq in Hv.
        rewrite (make_cfg_wrong_storage self kwargs w ps ss) by assumption.
        cbn [fst _config]. keep_keys.
      * rewrite (make_cfg_wrong_count self kwargs w ps) by assumption. exact Hk.
    + rewrite make_cfg_missing by assumption. exact Hk.
Qed.

(** In every reachable store the configuration has the five keys of the
    class body, in their order. *)
Lemma reachable_keys (w : world) : reachable w -> keys (_config w) = config_keys.
Proof.
  induction 1 as [disk|w self kwargs _ IH]; [reflexivity|].
  apply make_cfg_keeps_keys, IH.
Qed.

(** With those keys, the configuration a returning call leaves is these
    five entries. *)
Lemma config_entries (d : dict pyval) (pr pev tas params storage : pyval) :
  keys d = config_keys ->
  setitem "mean_temperature_file" tas
    (setitem "potential_evaporation_file" pev
       (setitem "precipitation_file" pr
          (setitem "parameters" params
             (setitem "initial_storage" storage d))))
  = [("precipitation_file", pr); ("potential_evaporation_file", pev);
     ("mean_temperature_file", tas); ("parameters", params);
     ("initial_storage", storage)].
Proof.
  unfold config_keys, keys. cbn [default_config map fst].
  destruct d as [|[k1 v1] [|[k2 v2] [|[k3 v3] [|[k4 v4] [|[k5 v5] [|? d]]]]]];
    try discriminate.
  intros [= -> -> -> -> ->]. reflexivity.
Qed.

(** The characters of joined numeric tokens need no escape. *)
Lemma escape_char_plain (c : ascii) :
  plain_char c = true -> Json.escape_char c = String c "".
Proof.
  destruct c as [[] [] [] [] [] [] [] []]; try discriminate; reflexivity.
Qed.

Lemma escape_plain (s : string) :
  all_chars plain_char s = true -> Json.escape s = s.
Proof.
  induction s as [|c s IH]; simpl; [reflexivity|].
  intros [Hc Hs]%andb_true_iff.
  rewrite (escape_char_plain c Hc), (IH Hs). reflexivity.
Qed.

Lemma joined_tokens_plain (toks : list string) :
  Forall (fun t => is_numeric_token t = true) toks ->
  all_chars plain_char (join "," toks) = true.
Proof.
  intros Hall. apply all_chars_join; [reflexivity|].
  eapply List.Forall_impl; [|exact Hall]. cbv beta. intros t Ht.
  unfold is_numeric_token in Ht. apply andb_true_iff in Ht as [_ Ht].
  revert Ht. apply all_chars_impl. intros c Hc.
  unfold plain_char. rewrite Hc. reflexivity.
Qed.

(** [json.dumps] of the five entries is the configuration document. *)
Lemma dumps_config_document (pr pev tas : string) (ptoks stoks : list string) :
  Forall (fun t => is_numeric_token t = true) ptoks ->
  Forall (fun t => is_numeric_token t = true) stoks ->
  Json.dumps
    [("precipitation_file", VStr pr); ("potential_evaporation_file", VStr pev);
     ("mean_temperature_file", VStr tas);
     ("parameters", VStr (join "," ptoks));
     ("initial_storage", VStr (join "," stoks))]
  = config_document pr pev tas (join "," ptoks) (join "," stoks).
Proof.
  intros Hp Hs.
  unfold Json.dumps, config_document, Json.encode_item, Json.encode_value,
    Json.encode_str.
  cbn [map fst snd join Json.indent].
  rewrite (escape_plain (join "," ptoks)) by (apply joined_tokens_plain, Hp).
  rewrite (escape_plain (join "," stoks)) by (apply joined_tokens_plain, Hs).
  repeat (rewrite !append_assoc || cbn [append Json.escape Json.newline]).
  reflexivity.
Qed.

(** *** Several instances *)

(** What an accessor returns depends on the configuration only. *)
Lemma name_items_config (names : list string) (key : string) (w1 w2 : world) :
  _config w1 = _config w2 ->
  snd (name_items names key w1) = snd (name_items names key w2).
Proof.
  intros H. run. rewrite H.
  destruct (getitem key (_config w2)) as [[s|l]|]; reflexivity.
Qed.

Lemma config_of_put_same (o : instance) (s : system) (w : world) :
  config_of o (put o s w) = _config w.
Proof. unfold config_of, put. cbn [configs]. rewrite lookup_insert_eq. reflexivity. Qed.

Lemma config_of_put_other (o o' : instance) (s : system) (w : world) :
  ident o <> ident o' -> config_of o' (put o s w) = config_of o' s.
Proof.
  intros Hne. unfold config_of, put. cbn [configs].
  rewrite lookup_insert_ne by exact Hne. reflexivity.
Qed.

(** After a call of [o] that passes validation, [o] reads its vectors. *)
Lemma instance_reads_own_call `{!PlatformSpec P} (o : instance) kwargs
    (s : system) (ps : list pynum) :
  kwargs !! "parameters" = Some ps ->
  valid_kwargs kwargs = true ->
  let s' := fst (call_make_cfg_file o kwargs s) in
  instance_parameters o s' = Ok (zip HBV_PARAMS (map str ps))
  /\ instance_states o s'
     = Ok (zip HBV_STATES (map str (storage_or_default kwargs))).
Proof.
  intros Hps Hv. cbv zeta. unfold call_make_cfg_file. cbn [fst].
  pose proof (accessors_after_valid (fields o) kwargs (view o s) ps Hps Hv)
    as [Hp Hs].
  unfold instance_parameters, instance_states, parameters, states in *.
  split.
  - rewrite (name_items_config _ _ _
               (fst (_make_cfg_file (fields o) kwargs (view o s))))
      by apply config_of_put_same.
    rewrite Hp. reflexivity.
  - rewrite (name_items_config _ _ _
               (fst (_make_cfg_file (fields o) kwargs (view o s))))
      by apply config_of_put_same.
    rewrite Hs. reflexivity.
Qed.

(** A call of [o] leaves what another instance reads as it was. *)
Lemma instance_untouched (o o' : instance) kwargs (s : system) :
  ident o <> ident o' ->
  let s' := fst (call_make_cfg_file o kwargs s) in
  config_of o' s' = config_of o' s
  /\ instance_parameters o' s' = instance_parameters o' s
  /\ instance_states o' s' = instance_states o' s.
Proof.
  intros Hne. cbv zeta. unfold call_make_cfg_file. cbn [fst].
  pose proof (config_of_put_other o o' s
                (fst (_make_cfg_file (fields o) kwargs (view o s))) Hne) as Hc.
  split; [exact Hc|].
  unfold instance_parameters, instance_states, parameters, states.
  split; apply name_items_config; exact Hc.
Qed.

End WithPlatform.

(** The example platform meets the one requirement on [float.__repr__]. *)
Lemma example_platform_spec : PlatformSpec Examples.example_platform.
Proof.
  constructor. intros f. cbn [float_repr Examples.example_platform].
  unfold Examples.example_float_repr.
  repeat match goal with
         | |- context [if ?b then _ else _] => destruct b
         end; reflexivity.
Qed.

End ModelFacts.

(** ** The contract of the configuration builder *)

Module ModelSpec.
Import Py Model PyFacts ModelFacts.

Section WithPlatform.
Context `{P : Platform}.

(** C1. For a 9-value parameter vector and a 5-value storage vector,
    after [_make_cfg_file] the [parameters] and [states] accessors
    return the canonical names, in order, each with the decimal string
    of the value given for it; and every integer among the values is
    the number its string parses to. *)
Theorem config_roundtrip `{!PlatformSpec P}
    (self : HBVMethods) (kwargs : gmap string (list pynum)) (w : world)
    (ps ss : list pynum) :
  kwargs !! "parameters" = Some ps ->
  kwargs !! "initial_storage" = Some ss ->
  length ps = 9 ->
  length ss = 5 ->
  let w' := fst (_make_cfg_file self kwargs w) in
  parameters self w' = (w', Ok (zip HBV_PARAMS (map str ps)))
  /\ states self w' = (w', Ok (zip HBV_STATES (map str ss)))
  /\ (forall z, In (PyInt z) (ps ++ ss)%list ->
                parse_int (str (PyInt z)) = Some z).
Proof.
  intros Hps Hss Hlen Hslen.
  assert (Hv : valid_kwargs kwargs = true).
  { unfold valid_kwargs. rewrite Hps, Hss.
    apply Nat.eqb_eq in Hlen. apply Nat.eqb_eq in Hslen.
    rewrite Hlen, Hslen. reflexivity. }
  pose proof (accessors_after_valid self kwargs w ps Hps Hv) as [Hp Hs].
  unfold storage_or_default in Hs. rewrite Hss in Hs.
  cbv zeta. repeat split; try assumption.
  intros z _. apply parse_str_int.
Qed.

(** C2. [_make_cfg_file] raises the validation error when [parameters]
    is absent, when it has not exactly 9 values, and when
    [initial_storage] is given with not exactly 5 values; and in no
    other case: the error is raised exactly when the arguments are not
    valid. *)
Theorem validation_exact (self : HBVMethods)
    (kwargs : gmap string (list pynum)) (w : world) :
  let r := snd (_make_cfg_file self kwargs w) in
  (kwargs !! "parameters" = None ->
   r = Raise (ValueError missing_parameters_msg))
  /\ (forall ps,
        kwargs !! "parameters" = Some ps -> length ps <> 9 ->
        r = Raise (ValueError "Incorrect number of parameters provided."))
  /\ (forall ps ss,
        kwargs !! "parameters" = Some ps -> length ps = 9 ->
        kwargs !! "initial_storage" = Some ss -> length ss <> 5 ->
        r = Raise (ValueError "The model needs 5 initial storage terms."))
  /\ is_ValueError r = negb (valid_kwargs kwargs).
Proof.
  cbv zeta. repeat split.
  - intros H. rewrite make_cfg_missing by exact H. reflexivity.
  - intros ps H Hlen. rewrite (make_cfg_wrong_count self kwargs w ps) by assumption.
    reflexivity.
  - intros ps ss H Hlen Hs Hslen.
    rewrite (make_cfg_wrong_storage self kwargs w ps ss) by assumption.
    reflexivity.
  - apply validation_outcome.
Qed.

(** C3. With 9 parameters and no [initial_storage], the call raises no
    validation error, returns the path of the file when the forcing and
    the directory are in place, and in every case leaves [states]
    reading zero, as the string ["0"], for each of the five names. *)
Theorem default_storage_zeros (self : HBVMethods)
    (kwargs : gmap string (list pynum)) (w : world) (ps : list pynum) :
  kwargs !! "parameters" = Some ps ->
  length ps = 9 ->
  kwargs !! "initial_storage" = None ->
  let r := _make_cfg_file self kwargs w in
  is_ValueError (snd r) = false
  /\ (environment_ready self = true ->
      snd r = Ok (path_join (_cfg_dir self) "HBV_config.json"))
  /\ states self (fst r)
     = (fst r, Ok [("Si", "0"); ("Su", "0"); ("Sf", "0"); ("Ss", "0"); ("Sp", "0")])
  /\ parse_int "0" = Some 0%Z.
Proof.
  intros Hps Hlen Hss.
  assert (Hv : valid_kwargs kwargs = true).
  { unfold valid_kwargs. rewrite Hps, Hss.
    apply Nat.eqb_eq in Hlen. rewrite Hlen. reflexivity. }
  cbv zeta. rewrite (make_cfg_valid self kwargs w ps Hps Hv).
  unfold storage_or_default. rewrite Hss.
  split; [apply resolve_and_write_no_ValueError|].
  split; [apply resolve_and_write_ready|].
  split; [|reflexivity].
  unfold states.
  apply (accessor_reads HBV_STATES ["0"; "0"; "0"; "0"; "0"]).
  - rewrite resolve_and_write_keeps by auto. cbn [_config].
    rewrite getitem_setitem_ne by discriminate.
    apply getitem_setitem_eq.
  - discriminate.
  - repeat constructor.
  - reflexivity.
  - apply HBV_STATES_distinct.
Qed.

(** C4. When the arguments fail validation the call raises the
    validation error and the files on disk are what they were: nothing
    is written before validation has passed. *)
Theorem validation_failure_writes_nothing (self : HBVMethods)
    (kwargs : gmap string (list pynum)) (w : world) :
  valid_kwargs kwargs = false ->
  let r := _make_cfg_file self kwargs w in
  (exists msg, snd r = Raise (ValueError msg))
  /\ files (fst r) = files w.
Proof.
  intros Hv. cbv zeta. unfold valid_kwargs in Hv.
  destruct (kwargs !! "parameters") as [ps|] eqn:Hps.
  - destruct (Nat.eqb_spec (length ps) 9) as [Hlen|Hlen].
    + destruct (kwargs !! "initial_storage") as [ss|] eqn:Hss; [|discriminate].
      cbn [andb] in Hv. apply Nat.eqb_neq in Hv.
      rewrite (make_cfg_wrong_storage self kwargs w ps ss) by assumption.
      split; [eexists; reflexivity|reflexivity].
    + rewrite (make_cfg_wrong_count self kwargs w ps) by assumption.
      split; [eexists; reflexivity|reflexivity].
  - rewrite make_cfg_missing by assumption.
    split; [eexists; reflexivity|reflexivity].
Qed.

(** C5, as amended. While the stored string is still empty, the split
    gives one empty field and the zip stops after the first name: the
    accessors return a single entry, [Imax] (respectively [Si]) with the
    empty string. *)
Theorem accessors_before_config (self : HBVMethods) (w : world) :
  getitem "parameters" (_config w) = Some (VStr "") ->
  getitem "initial_storage" (_config w) = Some (VStr "") ->
  parameters self w = (w, Ok [("Imax", "")])
  /\ states self w = (w, Ok [("Si", "")]).
Proof.
  intros Hp Hs. unfold parameters, states. run.
  rewrite Hp, Hs. split; reflexivity.
Qed.


(** C10. When the call raises because [initial_storage] has not 5
    values, the [parameters] entry already holds the new list: the
    configuration differs from what it was (unless it held that very
    list), and the [parameters] accessor of the instance now fails. *)
Theorem storage_error_leaves_parameters_overwritten
    (self : HBVMethods) (kwargs : gmap string (list pynum))
    (w : world) (ps ss : list pynum) :
  kwargs !! "parameters" = Some ps ->
  length ps = 9 ->
  kwargs !! "initial_storage" = Some ss ->
  length ss <> 5 ->
  let r := _make_cfg_file self kwargs w in
  snd r = Raise (ValueError "The model needs 5 initial storage terms.")
  /\ getitem "parameters" (_config (fst r)) = Some (VList ps)
  /\ (getitem "parameters" (_config w) <> Some (VList ps) ->
      _config (fst r) <> _config w)
  /\ snd (parameters self (fst r))
     = Raise (AttributeError "'list' object has no attribute 'split'").
Proof.
  intros Hps Hlen Hss Hslen. cbv zeta.
  rewrite (make_cfg_wrong_storage self kwargs w ps ss) by assumption.
  cbn [fst snd _config].
  split; [reflexivity|].
  split; [apply getitem_setitem_eq|].
  split.
  - intros Hold Heq. apply Hold. rewrite <- Heq. apply getitem_setitem_eq.
  - unfold parameters. run. rewrite getitem_setitem_eq. reflexivity.
Qed.

(** C8. In any reachable store, a call that returns has written the
    file [HBV_config.json] of the instance's configuration directory.
    Its text is the document of the five keys, one per line behind four
    spaces; it reads back as a JSON object of exactly those keys; the
    [parameters] string joins the 9 tokens of the values given and the
    [initial_storage] string the 5 tokens of the values given or of the
    zeros substituted, and every token is numeric. *)
Theorem written_config_document `{!PlatformSpec P}
    (self : HBVMethods) (kwargs : gmap string (list pynum))
    (w w' : world) (p : string) :
  reachable w ->
  _make_cfg_file self kwargs w = (w', Ok p) ->
  p = path_join (_cfg_dir self) "HBV_config.json"
  /\ exists ps pr pev tas,
       kwargs !! "parameters" = Some ps
       /\ let ptoks := map str ps in
          let stoks := map str (storage_or_default kwargs) in
          files w' !! p
          = Some (config_document pr pev tas (join "," ptoks) (join "," stoks))
          /\ Json.loads
               (config_document pr pev tas (join "," ptoks) (join "," stoks))
             = Some [("precipitation_file", pr);
                     ("potential_evaporation_file", pev);
                     ("mean_temperature_file", tas);
                     ("parameters", join "," ptoks);
                     ("initial_storage", join "," stoks)]
          /\ length ptoks = 9
          /\ length stoks = 5
          /\ Forall (fun t => is_numeric_token t = true) ptoks
          /\ Forall (fun t => is_numeric_token t = true) stoks.
Proof.
  intros Hreach Hrun.
  assert (Hv : valid_kwargs kwargs = true).
  { pose proof (validation_outcome self kwargs w) as H.
    rewrite Hrun in H. cbn in H.
    destruct (valid_kwargs kwargs); [reflexivity|discriminate]. }
  assert (Hv' := Hv). unfold valid_kwargs in Hv'.
  destruct (kwargs !! "parameters") as [ps|] eqn:Hps; [|discriminate]. clear Hv'.
  destruct (valid_kwargs_storage kwargs ps Hps Hv) as [Hlen Hslen].
  rewrite (make_cfg_valid self kwargs w ps Hps Hv) in Hrun.
  apply resolve_and_write_ok in Hrun as (pr & pev & tas & Hp & Hcfg & Hfiles).
  cbn [_config files] in Hcfg, Hfiles.
  rewrite config_entries in Hcfg
    by (pose proof (reachable_keys w Hreach); keep_keys).
  split; [exact Hp|].
  exists ps, pr, pev, tas. split; [reflexivity|]. cbv zeta.
  rewrite <- dumps_config_document by apply strs_numeric.
  repeat split.
  - rewrite Hfiles, lookup_insert_eq, Hcfg. reflexivity.
  - apply (JsonFacts.loads_dumps
             [("precipitation_file", pr); ("potential_evaporation_file", pev);
              ("mean_temperature_file", tas);
              ("parameters", join "," (map str ps));
              ("initial_storage", join "," (map str (storage_or_default kwargs)))]).
  - rewrite length_map. exact Hlen.
  - rewrite length_map. exact Hslen.
  - apply strs_numeric.
  - apply strs_numeric.
Qed.

End WithPlatform.

(** *** The theorems at work on the example instances *)

Import Examples.

Lemma config_roundtrip_witness :
  let w' := fst (_make_cfg_file model_A kwargs_full (initial_world ∅)) in
  parameters model_A w'
  = (w', Ok [("Imax", "2"); ("Ce", "0.5"); ("Sumax", "100"); ("Beta", "1.5");
             ("Pmax", "10"); ("Tlag", "4"); ("Kf", "0.5"); ("Ks", "-1");
             ("FM", "1.5")])
  /\ states model_A w'
     = (w', Ok [("Si", "0"); ("Su", "100.0"); ("Sf", "0"); ("Ss", "5");
                ("Sp", "0.0")])
  /\ (forall z, In (PyInt z) (nine ++ five)%list ->
                parse_int (str (PyInt z)) = Some z).
Proof.
  apply (config_roundtrip (PlatformSpec0 := example_platform_spec)
           model_A kwargs_full (initial_world ∅) nine five);
    reflexivity.
Defined.

Lemma default_storage_zeros_witness :
  let r := _make_cfg_file model_A kwargs_no_storage (initial_world ∅) in
  is_ValueError (snd r) = false
  /\ (environment_ready model_A = true ->
      snd r = Ok (path_join (_cfg_dir model_A) "HBV_config.json"))
  /\ states model_A (fst r)
     = (fst r, Ok [("Si", "0"); ("Su", "0"); ("Sf", "0"); ("Ss", "0"); ("Sp", "0")])
  /\ parse_int "0" = Some 0%Z.
Proof.
  apply (default_storage_zeros model_A kwargs_no_storage (initial_world ∅) nine);
    reflexivity.
Defined.

Lemma validation_failure_writes_nothing_witness :
  let r := _make_cfg_file model_A kwargs_bad_storage (initial_world ∅) in
  (exists msg, snd r = Raise (ValueError msg))
  /\ files (fst r) = files (initial_world ∅).
Proof.
  apply (validation_failure_writes_nothing model_A kwargs_bad_storage
           (initial_world ∅)).
  reflexivity.
Defined.

Lemma accessors_before_config_witness :
  parameters model_A (initial_world ∅) = (initial_world ∅, Ok [("Imax", "")])
  /\ states model_A (initial_world ∅) = (initial_world ∅, Ok [("Si", "")]).
Proof.
  apply (accessors_before_config model_A (initial_world ∅)); reflexivity.
Defined.

(** The boundaries of C2: 8, 9 and 10 parameters; 4, 5 and 6 storage
    terms next to 9 parameters. *)
Example parameters_boundary :
  map (fun n =>
         is_ValueError
           (snd (_make_cfg_file model_A
                   (<["parameters" := repeat (PyInt 1) n]> ∅)
                   (initial_world ∅))))
      [8; 9; 10]
  = [true; false; true].
Proof. reflexivity. Qed.

Example initial_storage_boundary :
  map (fun n =>
         is_ValueError
           (snd (_make_cfg_file model_A
                   (<["initial_storage" := repeat (PyFloat 0.5) n]>
                      kwargs_no_storage)
                   (initial_world ∅))))
      [4; 5; 6]
  = [true; false; true].
Proof. reflexivity. Qed.

(** C5 as stated fails: before any configuration the accessors do not
    map each canonical name to the empty string. *)
Lemma accessors_before_config_not_every_name :
  snd (parameters model_A (initial_world ∅))
  <> Ok (map (fun name => (name, "")) HBV_PARAMS)
  /\ snd (states model_A (initial_world ∅))
     <> Ok (map (fun name => (name, "")) HBV_STATES).
Proof. split; discriminate. Qed.



Lemma storage_error_leaves_parameters_overwritten_witness :
  let r := _make_cfg_file model_A kwargs_bad_storage (initial_world ∅) in
  snd r = Raise (ValueError "The model needs 5 initial storage terms.")
  /\ getitem "parameters" (_config (fst r)) = Some (VList nine)
  /\ (getitem "parameters" (_config (initial_world ∅)) <> Some (VList nine) ->
      _config (fst r) <> _config (initial_world ∅))
  /\ snd (parameters model_A (fst r))
     = Raise (AttributeError "'list' object has no attribute 'split'").
Proof.
  apply (storage_error_leaves_parameters_overwritten model_A
           kwargs_bad_storage (initial_world ∅) nine [PyInt 1; PyInt 2]);
    (reflexivity || discriminate).
Defined.

Lemma written_config_document_witness :
  let w' := fst (_make_cfg_file model_A kwargs_no_storage (initial_world ∅)) in
  "/run/a/HBV_config.json" = path_join (_cfg_dir model_A) "HBV_config.json"
  /\ exists ps pr pev tas,
       kwargs_no_storage !! "parameters" = Some ps
       /\ let ptoks := map str ps in
          let stoks := map str (storage_or_default kwargs_no_storage) in
          files w' !! "/run/a/HBV_config.json"
          = Some (config_document pr pev tas (join "," ptoks) (join "," stoks))
          /\ Json.loads
               (config_document pr pev tas (join "," ptoks) (join "," stoks))
             = Some [("precipitation_file", pr);
                     ("potential_evaporation_file", pev);
                     ("mean_temperature_file", tas);
                     ("parameters", join "," ptoks);
                     ("initial_storage", join "," stoks)]
          /\ length ptoks = 9
          /\ length stoks = 5
          /\ Forall (fun t => is_numeric_token t = true) ptoks
          /\ Forall (fun t => is_numeric_token t = true) stoks.
Proof.
  apply (written_config_document (PlatformSpec0 := example_platform_spec)
           model_A kwargs_no_storage (initial_world ∅)
           (fst (_make_cfg_file model_A kwargs_no_storage (initial_world ∅)))
           "/run/a/HBV_config.json").
  - apply reachable_initial.
  - reflexivity.
Defined.

(** The document of that call, as written. *)
Example written_config_document_text :
  files (fst (_make_cfg_file model_A kwargs_no_storage (initial_world ∅)))
    !! "/run/a/HBV_config.json"
  = Some (config_document "/data/forcing/pr.nc" "/data/forcing/evspsblpot.nc"
            "/data/forcing/tas.nc" "2,0.5,100,1.5,10,4,0.5,-1,1.5" "0,0,0,0,0").
Proof. reflexivity. Qed.

End ModelSpec.

(** ** The forcing loader *)

Module ForcingSpec.
Import Py Forcing.

Section WithPlatform.
Context `{P : Platform}.

(** C6. For a forcing file of the two rows [2000 1 1 1.5 0.3] and
    [2000 1 2 0.0 0.5], [to_xarray] returns a dataset whose time
    coordinate is 2000-01-01, 2000-01-02 and whose data variables are
    [pr = 1.5, 0.0] and [pev = 0.3, 0.5]: the year, month and day
    columns are gone. *)
Theorem to_xarray_two_rows (loadtxt : string -> result ndarray)
    (self : HBVForcing) (dir file : string) :
  directory self = Some dir ->
  forcing_file self = Some file ->
  loadtxt (path_join dir file)
  = Ok (Array2 [[2000; 1; 1; 1.5; 0.3]; [2000; 1; 2; 0.0; 0.5]]%float) ->
  to_xarray loadtxt self
  = Ok {| coord_name := Some "time";
          coord := [{| year := 2000; month := 1; day := 1 |};
                    {| year := 2000; month := 1; day := 2 |}];
          data_vars := [("pr", [1.5; 0.0]%float); ("pev", [0.3; 0.5]%float)];
          attrs := [("title", "HBV forcing data");
                    ("history",
                     "Created by ewatercycle_HBV.forcing.HBVForcing.to_xarray()")] |}.
Proof.
  intros Hdir Hfile Hload. unfold to_xarray.
  rewrite Hdir, Hfile. cbv zeta. rewrite Hload.
  reflexivity.
Qed.

(** C7. With the directory or the file name unset, [to_xarray] raises
    its own error, whatever is on disk; no path is built. *)
Theorem to_xarray_unset (loadtxt : string -> result ndarray) (self : HBVForcing) :
  directory self = None \/ forcing_file self = None ->
  to_xarray loadtxt self = Raise (ValueError "Directory or forcing_file is not set").
Proof.
  intros [H|H]; unfold to_xarray; rewrite H;
    [|destruct (directory self)]; reflexivity.
Qed.

End WithPlatform.

Import Examples.

Lemma to_xarray_two_rows_witness :
  to_xarray (fun _ => Ok example_rows)
    {| directory := Some "/data/forcing"; forcing_file := Some "forcing.txt" |}
  = Ok {| coord_name := Some "time";
          coord := [{| year := 2000; month := 1; day := 1 |};
                    {| year := 2000; month := 1; day := 2 |}];
          data_vars := [("pr", [1.5; 0.0]%float); ("pev", [0.3; 0.5]%float)];
          attrs := [("title", "HBV forcing data");
                    ("history",
                     "Created by ewatercycle_HBV.forcing.HBVForcing.to_xarray()")] |}.
Proof.
  apply (to_xarray_two_rows (fun _ => Ok example_rows)
           {| directory := Some "/data/forcing"; forcing_file := Some "forcing.txt" |}
           "/data/forcing" "forcing.txt");
    reflexivity.
Defined.

Lemma to_xarray_unset_witness :
  to_xarray (fun _ => Ok example_rows)
    {| directory := None; forcing_file := Some "forcing.txt" |}
  = Raise (ValueError "Directory or forcing_file is not set").
Proof.
  apply (to_xarray_unset (fun _ => Ok example_rows)
           {| directory := None; forcing_file := Some "forcing.txt" |}).
  left. reflexivity.
Defined.

End ForcingSpec.

(** ** More on the configuration builder *)

Module ModelExtra.
Import Py Model PyFacts ModelFacts.

Ltac getitems :=
  repeat (rewrite getitem_setitem_eq
          || rewrite getitem_setitem_ne by discriminate).

Section WithPlatform.
Context `{P : Platform}.

Lemma resolve_and_write_shape (self : HBVMethods) (w : world) :
  config_shape (_config w) ->
  config_shape (_config (fst (resolve_and_write self w))).
Proof.
  intros (Hk & Hp & Hs & Hf). unfold config_shape. run.
  split_cases;
    (split; [keep_keys|]);
    (split; [getitems; exact Hp|]);
    (split; [getitems; exact Hs|]);
    intros k Hin; cbn [In] in Hin;
    destruct Hin as [<-|[<-|[<-|[]]]]; getitems;
    eauto; apply Hf; cbn [In]; tauto.
Qed.

Lemma make_cfg_shape (self : HBVMethods) kwargs (w : world) :
  config_shape (_config w) ->
  config_shape (_config (fst (_make_cfg_file self kwargs w))).
Proof.
  intros Hsh. destruct (valid_kwargs kwargs) eqn:Hv.
  - assert (Hv' := Hv). unfold valid_kwargs in Hv'.
    destruct (kwargs !! "parameters") as [ps|] eqn:Hps; [|discriminate].
    destruct (valid_kwargs_storage kwargs ps Hps Hv) as [Hlen Hslen].
    rewrite (make_cfg_valid self kwargs w ps Hps Hv).
    apply resolve_and_write_shape. cbn [_config].
    destruct Hsh as (Hk & _ & _ & Hf). unfold config_shape.
    split; [keep_keys|].
    split; [getitems; eexists; split; [reflexivity|]; right; left; eauto|].
    split; [getitems; eexists; split; [reflexivity|]; right; eauto|].
    intros k Hin. pose proof (Hf k Hin) as Hfk. cbn [In] in Hin.
    destruct Hin as [<-|[<-|[<-|[]]]]; getitems; exact Hfk.
  - unfold valid_kwargs in Hv.
    destruct (kwargs !! "parameters") as [ps|] eqn:Hps.
    + destruct (Nat.eqb_spec (length ps) 9) as [Hlen|Hlen].
      * destruct (kwargs !! "initial_storage") as [ss|] eqn:Hss; [|discriminate].
        cbn [andb] in Hv. apply Nat.eqb_neq in Hv.
        rewrite (make_cfg_wrong_storage self kwargs w ps ss) by assumption.
        cbn [fst _config].
        destruct Hsh as (Hk & _ & Hs & Hf). unfold config_shape.
        split; [keep_keys|].
        split; [getitems; eexists; split; [reflexivity|]; right; right; eauto|].
        split; [getitems; exact Hs|].
        intros k Hin. pose proof (Hf k Hin) as Hfk. cbn [In] in Hin.
        destruct Hin as [<-|[<-|[<-|[]]]]; getitems; exact Hfk.
      * rewrite (make_cfg_wrong_count self kwargs w ps) by assumption. exact Hsh.
    + rewrite make_cfg_missing by assumption. exact Hsh.
Qed.

Lemma reachable_shape (w : world) : reachable w -> config_shape (_config w).
Proof.
  induction 1 as [disk|w self kwargs _ IH].
  - unfold config_shape. cbn [initial_world _config].
    split; [reflexivity|].
    split; [eexists; split; [reflexivity|left; reflexivity]|].
    split; [eexists; split; [reflexivity|left; reflexivity]|].
    intros k Hin. cbn [In] in Hin.
    destruct Hin as [<-|[<-|[<-|[]]]]; eexists; reflexivity.
  - apply make_cfg_shape, IH.
Qed.

(** X1. Whatever calls were made, returning or raising, the
    configuration has the five keys of the class body in their order;
    the three file entries and the storage entry are strings, the
    storage one empty or five joined tokens; the parameters entry is
    the empty string, nine joined tokens, or a list of nine numbers. *)
Theorem reachable_config_shape (w : world) :
  reachable w ->
  keys (_config w)
  = ["precipitation_file"; "potential_evaporation_file";
     "mean_temperature_file"; "parameters"; "initial_storage"]
  /\ (exists s_pr s_pev s_tas,
        getitem "precipitation_file" (_config w) = Some (VStr s_pr)
        /\ getitem "potential_evaporation_file" (_config w) = Some (VStr s_pev)
        /\ getitem "mean_temperature_file" (_config w) = Some (VStr s_tas))
  /\ (exists v, getitem "initial_storage" (_config w) = Some v
                /\ storage_entry v)
  /\ (exists v, getitem "parameters" (_config w) = Some v
                /\ parameters_entry v).
Proof.
  intros Hr. destruct (reachable_shape w Hr) as (Hk & Hp & Hs & Hf).
  split; [exact Hk|].
  split; [|split; assumption].
  destruct (Hf "precipitation_file") as [s1 H1]; [cbn [In]; tauto|].
  destruct (Hf "potential_evaporation_file") as [s2 H2]; [cbn [In]; tauto|].
  destruct (Hf "mean_temperature_file") as [s3 H3]; [cbn [In]; tauto|].
  exists s1, s2, s3. auto.
Qed.

(** X2. In every reachable store the [states] accessor returns: the
    single entry of the class body, or the five names with the tokens
    of the last storage vector that passed validation. *)
Theorem states_never_raises `{!PlatformSpec P} (self : HBVMethods) (w : world) :
  reachable w ->
  states self w = (w, Ok [("Si", "")])
  \/ exists l, length l = 5
               /\ states self w = (w, Ok (zip HBV_STATES (map str l))).
Proof.
  intros Hr. destruct (reachable_shape w Hr) as (_ & _ & (v & Hv & Hs) & _).
  destruct Hs as [->|(l & Hlen & ->)].
  - left. unfold states. run. rewrite Hv. reflexivity.
  - right. exists l. split; [exact Hlen|].
    unfold states. apply accessor_reads.
    + exact Hv.
    + apply (nonempty_of_length _ 4). rewrite length_map. exact Hlen.
    + apply strs_no_comma.
    + rewrite length_map, Hlen. reflexivity.
    + apply HBV_STATES_distinct.
Qed.

(** X3. In every reachable store the [parameters] accessor returns the
    single entry of the class body or the nine names with the tokens of
    a validated vector, or else the entry is a list of nine numbers and
    the accessor raises the [AttributeError] of [list.split]: it fails
    in no other way. *)
Theorem parameters_in_reachable_store `{!PlatformSpec P}
    (self : HBVMethods) (w : world) :
  reachable w ->
  parameters self w = (w, Ok [("Imax", "")])
  \/ (exists l, length l = 9
                /\ parameters self w = (w, Ok (zip HBV_PARAMS (map str l))))
  \/ (exists l, length l = 9
                /\ getitem "parameters" (_config w) = Some (VList l)
                /\ parameters self w
                   = (w, Raise (AttributeError
                                  "'list' object has no attribute 'split'"))).
Proof.
  intros Hr. destruct (reachable_shape w Hr) as (_ & (v & Hv & Hp) & _).
  destruct Hp as [->|[(l & Hlen & ->)|(l & Hlen & ->)]].
  - left. unfold parameters. run. rewrite Hv. reflexivity.
  - right. left. exists l. split; [exact Hlen|].
    unfold parameters. apply accessor_reads.
    + exact Hv.
    + apply (nonempty_of_length _ 8). rewrite length_map. exact Hlen.
    + apply strs_no_comma.
    + rewrite length_map, Hlen. reflexivity.
    + apply HBV_PARAMS_distinct.
  - right. right. exists l. repeat split; try assumption.
    unfold parameters. run. rewrite Hv. reflexivity.
Qed.

Lemma resolve_and_write_returns (self : HBVMethods) (w : world) :
  (exists p, snd (resolve_and_write self w) = Ok p)
  <-> environment_ready self = true.
Proof.
  unfold environment_ready. run.
  destruct (filename (forcing self) "pr");
    destruct (directory (forcing self));
    destruct (filename (forcing self) "evspsblpot");
    destruct (filename (forcing self) "tas");
    cbn [fst snd _config files];
    try destruct (can_write (path_join (_cfg_dir self) "HBV_config.json"));
    cbn [fst snd];
    (split; [intros [p Hp]; (reflexivity || discriminate)
            |intros H; (discriminate || (eexists; reflexivity))]).
Qed.

Lemma make_cfg_returns_iff (self : HBVMethods) kwargs (w : world) :
  (exists p, snd (_make_cfg_file self kwargs w) = Ok p)
  <-> valid_kwargs kwargs = true /\ environment_ready self = true.
Proof.
  destruct (valid_kwargs kwargs) eqn:Hv.
  - assert (Hv' := Hv). unfold valid_kwargs in Hv'.
    destruct (kwargs !! "parameters") as [ps|] eqn:Hps; [|discriminate].
    rewrite (make_cfg_valid self kwargs w ps Hps Hv).
    rewrite resolve_and_write_returns. tauto.
  - pose proof (validation_outcome self kwargs w) as Hve. rewrite Hv in Hve.
    cbn [negb] in Hve.
    split; [|intros [? _]; discriminate].
    intros [p Hp]. rewrite Hp in Hve. discriminate.
Qed.

(** X4. The call returns exactly when the arguments pass validation,
    the forcing has a directory and the three files [pr], [evspsblpot]
    and [tas], and the configuration file can be opened; what it then
    returns is the path of that file. *)
Theorem make_cfg_returns_exactly (self : HBVMethods)
    (kwargs : gmap string (list pynum)) (w : world) :
  ((exists p, snd (_make_cfg_file self kwargs w) = Ok p)
   <-> valid_kwargs kwargs = true /\ environment_ready self = true)
  /\ (forall p, snd (_make_cfg_file self kwargs w) = Ok p ->
                p = path_join (_cfg_dir self) "HBV_config.json").
Proof.
  split; [apply make_cfg_returns_iff|].
  intros p Hp.
  assert (Hok : exists q, snd (_make_cfg_file self kwargs w) = Ok q) by eauto.
  apply make_cfg_returns_iff in Hok as [Hv Hready].
  assert (Hv' := Hv). unfold valid_kwargs in Hv'.
  destruct (kwargs !! "parameters") as [ps|] eqn:Hps; [|discriminate].
  rewrite (make_cfg_valid self kwargs w ps Hps Hv) in Hp.
  rewrite (resolve_and_write_ready self _ Hready) in Hp. congruence.
Qed.

Lemma make_cfg_outcome (self : HBVMethods) kwargs (w : world) :
  let r := _make_cfg_file self kwargs w in
  (exists e, snd r = Raise e /\ files (fst r) = files w)
  \/ (exists text,
        snd r = Ok (path_join (_cfg_dir self) "HBV_config.json")
        /\ files (fst r)
           = <[path_join (_cfg_dir self) "HBV_config.json" := text]> (files w)).
Proof.
  cbv zeta. destruct (valid_kwargs kwargs) eqn:Hv.
  - assert (Hv' := Hv). unfold valid_kwargs in Hv'.
    destruct (kwargs !! "parameters") as [ps|] eqn:Hps; [|discriminate].
    rewrite (make_cfg_valid self kwargs w ps Hps Hv).
    match goal with
    | |- context [resolve_and_write self ?x] => set (w1 := x)
    end.
    destruct (resolve_and_write self w1) as [w' [p|e]] eqn:Hrun.
    + right. apply resolve_and_write_ok in Hrun
        as (pr & pev & tas & -> & _ & Hfiles).
      eexists. split; [reflexivity|exact Hfiles].
    + left. pose proof (resolve_and_write_raise self w1 e) as H.
      rewrite Hrun in H. exists e. split; [reflexivity|exact (H eq_refl)].
  - left. unfold valid_kwargs in Hv.
    destruct (kwargs !! "parameters") as [ps|] eqn:Hps.
    + destruct (Nat.eqb_spec (length ps) 9) as [Hlen|Hlen].
      * destruct (kwargs !! "initial_storage") as [ss|] eqn:Hss; [|discriminate].
        cbn [andb] in Hv. apply Nat.eqb_neq in Hv.
        rewrite (make_cfg_wrong_storage self kwargs w ps ss) by assumption.
        eexists. split; reflexivity.
      * rewrite (make_cfg_wrong_count self kwargs w ps) by assumption.
        eexists. split; reflexivity.
    + rewrite make_cfg_missing by assumption. eexists. split; reflexivity.
Qed.

(** X5. Whatever the arguments and the outcome, the call leaves every
    file other than the instance's [HBV_config.json] as it was. *)
Theorem make_cfg_touches_one_file (self : HBVMethods)
    (kwargs : gmap string (list pynum)) (w : world) (q : string) :
  q <> path_join (_cfg_dir self) "HBV_config.json" ->
  files (fst (_make_cfg_file self kwargs w)) !! q = files w !! q.
Proof.
  intros Hq.
  destruct (make_cfg_outcome self kwargs w) as [(e & _ & ->)|(text & _ & ->)];
    [reflexivity|].
  apply lookup_insert_ne. congruence.
Qed.

(** X6. When the arguments pass validation but the forcing or the file
    is not in place, the call raises an error other than the validation
    error and writes nothing, yet the two vectors are already stored:
    the accessors of the instance read the new values although no file
    holds them. *)
Theorem validated_then_failed `{!PlatformSpec P} (self : HBVMethods)
    (kwargs : gmap string (list pynum)) (w : world) (ps : list pynum) :
  kwargs !! "parameters" = Some ps ->
  valid_kwargs kwargs = true ->
  environment_ready self = false ->
  let r := _make_cfg_file self kwargs w in
  (exists e, snd r = Raise e /\ is_ValueError (snd r) = false)
  /\ files (fst r) = files w
  /\ parameters self (fst r) = (fst r, Ok (zip HBV_PARAMS (map str ps)))
  /\ states self (fst r)
     = (fst r, Ok (zip HBV_STATES (map str (storage_or_default kwargs)))).
Proof.
  intros Hps Hv Henv. cbv zeta.
  pose proof (accessors_after_valid self kwargs w ps Hps Hv) as [Hp Hs].
  pose proof (validation_outcome self kwargs w) as Hve.
  rewrite Hv in Hve. cbn [negb] in Hve.
  destruct (make_cfg_outcome self kwargs w)
    as [(e & He & Hfiles)|(text & Hok & _)].
  - repeat split; try assumption. exists e. split; assumption.
  - assert (Hready : environment_ready self = true)
      by (apply (make_cfg_returns_iff self kwargs w); eauto).
    congruence.
Qed.

(** X8. When [parameters] is absent or has not 9 values, the call
    leaves the store exactly as it was: the configuration too, unlike
    the failure on the storage vector. *)
Theorem parameter_errors_leave_store (self : HBVMethods)
    (kwargs : gmap string (list pynum)) (w : world) :
  (kwargs !! "parameters" = None
   \/ exists ps, kwargs !! "parameters" = Some ps /\ length ps <> 9) ->
  fst (_make_cfg_file self kwargs w) = w.
Proof.
  intros [H|(ps & H & Hlen)].
  - rewrite make_cfg_missing by exact H. reflexivity.
  - rewrite (make_cfg_wrong_count self kwargs w ps) by assumption. reflexivity.
Qed.

Lemma split_nonempty (sep : ascii) (s : string) : 1 <= length (split sep s).
Proof.
  induction s as [|c s IH]; simpl; [lia|].
  destruct (Ascii.eqb c sep); simpl; [lia|].
  destruct (split sep s); simpl in *; lia.
Qed.

Lemma keys_zip_firstn {V : Type} (names : list string) (vals : list V) :
  keys (zip names vals) = firstn (length vals) names.
Proof.
  unfold keys, zip. revert vals.
  induction names as [|n names IH]; intros [|v vals]; simpl; try reflexivity.
  f_equal. apply IH.
Qed.

Lemma NoDup_firstn {A : Type} (n : nat) (l : list A) :
  List.NoDup l -> List.NoDup (firstn n l).
Proof.
  revert n. induction l as [|a l IH]; intros [|n] Hnd; simpl; try constructor.
  - inversion Hnd as [|? ? Hnin Hl]; subst. intros Hin. apply Hnin.
    rewrite <- (firstn_skipn n l). apply in_or_app. left. exact Hin.
  - inversion Hnd; subst. auto.
Qed.

(** X7. On any stored strings the accessors raise nothing and pair the
    names, in order, with the comma-separated fields as far as both
    last: at least one entry, at most 9 (respectively 5); fields beyond
    the names are dropped, names beyond the fields are absent. *)
Theorem accessors_pair_names_with_fields (self : HBVMethods) (w : world)
    (sp ss : string) :
  getitem "parameters" (_config w) = Some (VStr sp) ->
  getitem "initial_storage" (_config w) = Some (VStr ss) ->
  parameters self w = (w, Ok (zip HBV_PARAMS (split "," sp)))
  /\ states self w = (w, Ok (zip HBV_STATES (split "," ss)))
  /\ length (zip HBV_PARAMS (split "," sp)) = Nat.min 9 (length (split "," sp))
  /\ length (zip HBV_STATES (split "," ss)) = Nat.min 5 (length (split "," ss))
  /\ 1 <= length (split "," sp)
  /\ 1 <= length (split "," ss).
Proof.
  intros Hp Hs. unfold parameters, states. run. rewrite Hp, Hs.
  rewrite !dict_of_distinct
    by (rewrite keys_zip_firstn; apply NoDup_firstn;
        (apply HBV_PARAMS_distinct || apply HBV_STATES_distinct)).
  repeat split; try apply split_nonempty; unfold zip; apply length_combine.
Qed.

Lemma make_cfg_success (self : HBVMethods) kwargs (w : world)
    (ps : list pynum) (dir f_pr f_pev f_tas : string) :
  keys (_config w) = config_keys ->
  kwargs !! "parameters" = Some ps ->
  valid_kwargs kwargs = true ->
  directory (forcing self) = Some dir ->
  filename (forcing self) "pr" = Some f_pr ->
  filename (forcing self) "evspsblpot" = Some f_pev ->
  filename (forcing self) "tas" = Some f_tas ->
  can_write (path_join (_cfg_dir self) "HBV_config.json") = true ->
  let cfg := final_config dir f_pr f_pev f_tas ps (storage_or_default kwargs) in
  _make_cfg_file self kwargs w
  = ({| _config := cfg;
        files := <[path_join (_cfg_dir self) "HBV_config.json"
                   := Json.dumps cfg]> (files w) |},
     Ok (path_join (_cfg_dir self) "HBV_config.json")).
Proof.
  intros Hk Hps Hv Hdir Hpr Hpev Htas Hw. cbv zeta.
  rewrite (make_cfg_valid self kwargs w ps Hps Hv).
  run. rewrite Hpr, Hdir, Hpev, Htas. cbn [fst snd _config files].
  rewrite Hw.
  rewrite !config_entries by keep_keys. reflexivity.
Qed.

(** X10. From a reachable store, a call with valid arguments, a forcing
    directory, the three files and a writable path leaves exactly this
    configuration: [precipitation_file], [potential_evaporation_file]
    and [mean_temperature_file] are the directory joined with
    [forcing['pr']], [forcing['evspsblpot']] and [forcing['tas']], and
    the two vectors are joined strings; the file holds its dump and the
    path is returned.  Nothing of the earlier configuration is left. *)
Theorem make_cfg_final_state (self : HBVMethods)
    (kwargs : gmap string (list pynum)) (w : world)
    (ps : list pynum) (dir f_pr f_pev f_tas : string) :
  reachable w ->
  kwargs !! "parameters" = Some ps ->
  valid_kwargs kwargs = true ->
  directory (forcing self) = Some dir ->
  filename (forcing self) "pr" = Some f_pr ->
  filename (forcing self) "evspsblpot" = Some f_pev ->
  filename (forcing self) "tas" = Some f_tas ->
  can_write (path_join (_cfg_dir self) "HBV_config.json") = true ->
  let cfg := final_config dir f_pr f_pev f_tas ps (storage_or_default kwargs) in
  _make_cfg_file self kwargs w
  = ({| _config := cfg;
        files := <[path_join (_cfg_dir self) "HBV_config.json"
                   := Json.dumps cfg]> (files w) |},
     Ok (path_join (_cfg_dir self) "HBV_config.json")).
Proof.
  intros Hr. apply make_cfg_success, reachable_keys, Hr.
Qed.

(** X9. Repeating a call that returned changes nothing: from the store
    it left, the same call returns the same path and leaves the same
    configuration and the same files. *)
Theorem make_cfg_idempotent (self : HBVMethods)
    (kwargs : gmap string (list pynum)) (w w' : world) (p : string) :
  reachable w ->
  _make_cfg_file self kwargs w = (w', Ok p) ->
  _make_cfg_file self kwargs w' = (w', Ok p).
Proof.
  intros Hr Hrun.
  assert (Hok : exists q, snd (_make_cfg_file self kwargs w) = Ok q)
    by (rewrite Hrun; eauto).
  apply make_cfg_returns_iff in Hok as [Hv Hready].
  assert (Hv' := Hv). unfold valid_kwargs in Hv'.
  destruct (kwargs !! "parameters") as [ps|] eqn:Hps; [|discriminate].
  unfold environment_ready in Hready.
  destruct (directory (forcing self)) as [dir|] eqn:Hdir; [|discriminate].
  destruct (filename (forcing self) "pr") as [f_pr|] eqn:Hpr; [|discriminate].
  destruct (filename (forcing self) "evspsblpot") as [f_pev|] eqn:Hpev;
    [|discriminate].
  destruct (filename (forcing self) "tas") as [f_tas|] eqn:Htas; [|discriminate].
  pose proof (make_cfg_success self kwargs w ps dir f_pr f_pev f_tas
                (reachable_keys w Hr) Hps Hv Hdir Hpr Hpev Htas Hready) as H1.
  cbv zeta in H1. rewrite H1 in Hrun. injection Hrun as <- <-.
  rewrite (make_cfg_success self kwargs _ ps dir f_pr f_pev f_tas)
    by (reflexivity || assumption).
  cbn [_config files]. rewrite insert_insert_eq. reflexivity.
Qed.

Lemma make_cfg_ok_file (self : HBVMethods) kwargs (w w' : world) (p : string) :
  _make_cfg_file self kwargs w = (w', Ok p) ->
  files w' !! p = Some (Json.dumps (_config w')).
Proof.
  intros Hrun.
  assert (Hok : exists q, snd (_make_cfg_file self kwargs w) = Ok q)
    by (rewrite Hrun; eauto).
  apply make_cfg_returns_iff in Hok as [Hv _].
  assert (Hv' := Hv). unfold valid_kwargs in Hv'.
  destruct (kwargs !! "parameters") as [ps|] eqn:Hps; [|discriminate].
  rewrite (make_cfg_valid self kwargs w ps Hps Hv) in Hrun.
  apply resolve_and_write_ok in Hrun as (pr & pev & tas & _ & _ & Hfiles).
  rewrite Hfiles. apply lookup_insert_eq.
Qed.


End WithPlatform.

(** *** The theorems at work on the example instances *)

Import Examples.


Lemma reachable_config_shape_witness :
  let w := fst (_make_cfg_file model_A kwargs_bad_storage (initial_world ∅)) in
  keys (_config w)
  = ["precipitation_file"; "potential_evaporation_file";
     "mean_temperature_file"; "parameters"; "initial_storage"]
  /\ (exists s_pr s_pev s_tas,
        getitem "precipitation_file" (_config w) = Some (VStr s_pr)
        /\ getitem "potential_evaporation_file" (_config w) = Some (VStr s_pev)
        /\ getitem "mean_temperature_file" (_config w) = Some (VStr s_tas))
  /\ (exists v, getitem "initial_storage" (_config w) = Some v
                /\ storage_entry v)
  /\ (exists v, getitem "parameters" (_config w) = Some v
                /\ parameters_entry v).
Proof.
  apply (reachable_config_shape
           (fst (_make_cfg_file model_A kwargs_bad_storage (initial_world ∅)))).
  apply reachable_call, reachable_initial.
Defined.

Lemma states_never_raises_witness :
  let w := fst (_make_cfg_file model_A kwargs_bad_storage (initial_world ∅)) in
  states model_A w = (w, Ok [("Si", "")])
  \/ exists l, length l = 5
               /\ states model_A w = (w, Ok (zip HBV_STATES (map str l))).
Proof.
  apply (states_never_raises (PlatformSpec0 := example_platform_spec) model_A
           (fst (_make_cfg_file model_A kwargs_bad_storage (initial_world ∅)))).
  apply reachable_call, reachable_initial.
Defined.

Lemma parameters_in_reachable_store_witness :
  let w := fst (_make_cfg_file model_A kwargs_bad_storage (initial_world ∅)) in
  parameters model_A w = (w, Ok [("Imax", "")])
  \/ (exists l, length l = 9
                /\ parameters model_A w = (w, Ok (zip HBV_PARAMS (map str l))))
  \/ (exists l, length l = 9
                /\ getitem "parameters" (_config w) = Some (VList l)
                /\ parameters model_A w
                   = (w, Raise (AttributeError
                                  "'list' object has no attribute 'split'"))).
Proof.
  apply (parameters_in_reachable_store (PlatformSpec0 := example_platform_spec)
           model_A
           (fst (_make_cfg_file model_A kwargs_bad_storage (initial_world ∅)))).
  apply reachable_call, reachable_initial.
Defined.

Lemma make_cfg_touches_one_file_witness :
  let w := initial_world {["/run/a/notes.txt" := "keep"]} in
  files (fst (_make_cfg_file model_A kwargs_full w)) !! "/run/a/notes.txt"
  = files w !! "/run/a/notes.txt".
Proof.
  apply (make_cfg_touches_one_file model_A kwargs_full
           (initial_world {["/run/a/notes.txt" := "keep"]}) "/run/a/notes.txt").
  discriminate.
Defined.

Lemma validated_then_failed_witness :
  let r := _make_cfg_file model_unready kwargs_full (initial_world ∅) in
  (exists e, snd r = Raise e /\ is_ValueError (snd r) = false)
  /\ files (fst r) = files (initial_world ∅)
  /\ parameters model_unready (fst r)
     = (fst r, Ok (zip HBV_PARAMS (map str nine)))
  /\ states model_unready (fst r)
     = (fst r, Ok (zip HBV_STATES (map str (storage_or_default kwargs_full)))).
Proof.
  apply (validated_then_failed (PlatformSpec0 := example_platform_spec)
           model_unready kwargs_full (initial_world ∅) nine);
    reflexivity.
Defined.

Lemma accessors_pair_names_with_fields_witness :
  parameters model_A world_odd
  = (world_odd, Ok (zip HBV_PARAMS (split "," "1,2,3,4,5,6,7,8,9,10,11")))
  /\ states model_A world_odd = (world_odd, Ok (zip HBV_STATES (split "," "7,8")))
  /\ length (zip HBV_PARAMS (split "," "1,2,3,4,5,6,7,8,9,10,11"))
     = Nat.min 9 (length (split "," "1,2,3,4,5,6,7,8,9,10,11"))
  /\ length (zip HBV_STATES (split "," "7,8"))
     = Nat.min 5 (length (split "," "7,8"))
  /\ 1 <= length (split "," "1,2,3,4,5,6,7,8,9,10,11")
  /\ 1 <= length (split "," "7,8").
Proof.
  apply (accessors_pair_names_with_fields model_A world_odd
           "1,2,3,4,5,6,7,8,9,10,11" "7,8");
    reflexivity.
Defined.

(** Eleven fields give nine entries, two fields give two. *)
Example accessors_on_odd_strings :
  snd (parameters model_A world_odd)
  = Ok [("Imax", "1"); ("Ce", "2"); ("Sumax", "3"); ("Beta", "4");
        ("Pmax", "5"); ("Tlag", "6"); ("Kf", "7"); ("Ks", "8"); ("FM", "9")]
  /\ snd (states model_A world_odd) = Ok [("Si", "7"); ("Su", "8")].
Proof. split; reflexivity. Qed.

Lemma parameter_errors_leave_store_witness :
  fst (_make_cfg_file model_A
         (<["parameters" := [PyInt 1; PyInt 2]]> ∅) (initial_world ∅))
  = initial_world ∅.
Proof.
  apply (parameter_errors_leave_store model_A
           (<["parameters" := [PyInt 1; PyInt 2]]> ∅) (initial_world ∅)).
  right. exists [PyInt 1; PyInt 2]. split; [reflexivity|discriminate].
Defined.

Lemma make_cfg_idempotent_witness :
  let w' := fst (_make_cfg_file model_A kwargs_full (initial_world ∅)) in
  _make_cfg_file model_A kwargs_full w' = (w', Ok "/run/a/HBV_config.json").
Proof.
  apply (make_cfg_idempotent model_A kwargs_full (initial_world ∅)
           (fst (_make_cfg_file model_A kwargs_full (initial_world ∅)))
           "/run/a/HBV_config.json").
  - apply reachable_initial.
  - reflexivity.
Defined.

Lemma make_cfg_final_state_witness :
  let cfg := final_config "/data/forcing" "pr.nc" "evspsblpot.nc" "tas.nc"
               nine (storage_or_default kwargs_no_storage) in
  _make_cfg_file model_A kwargs_no_storage
    (fst (_make_cfg_file model_A kwargs_other (initial_world ∅)))
  = ({| _config := cfg;
        files := <[path_join (_cfg_dir model_A) "HBV_config.json"
                   := Json.dumps cfg]>
                   (files (fst (_make_cfg_file model_A kwargs_other
                                  (initial_world ∅)))) |},
     Ok (path_join (_cfg_dir model_A) "HBV_config.json")).
Proof.
  apply (make_cfg_final_state model_A kwargs_no_storage
           (fst (_make_cfg_file model_A kwargs_other (initial_world ∅)))
           nine "/data/forcing" "pr.nc" "evspsblpot.nc" "tas.nc");
    try reflexivity.
  apply reachable_call, reachable_initial.
Defined.

End ModelExtra.

(** ** More on the forcing loader *)

Module ForcingExtra.
Import Py Forcing PyFacts.

Lemma uint_digits_are_digits (d : Decimal.uint) :
  all_chars is_digit (NilEmpty.string_of_uint d) = true.
Proof. induction d; simpl; auto. Qed.

Lemma str_int_digits (z : Z) :
  (0 <= z)%Z -> all_chars is_digit (str_int z) = true /\ str_int z <> "".
Proof.
  intros Hz. unfold str_int. destruct z as [|p|p]; [split; [reflexivity|discriminate]| |lia].
  cbn [Z.to_int NilZero.string_of_int].
  pose proof (DecimalPos.Unsigned.to_uint_nonnil p) as Hnil.
  destruct (Pos.to_uint p) eqn:E; try contradiction;
    (split; [apply (uint_digits_are_digits (_ u))|discriminate]).
Qed.

Lemma digits_field_str_int (z : Z) :
  (0 <= z)%Z -> digits_field (str_int z) = Some z.
Proof.
  intros Hz. destruct (str_int_digits z Hz) as [Hd Hne].
  unfold digits_field. rewrite Hd.
  destruct (String.eqb_spec (str_int z) ""); [contradiction|].
  cbn [negb andb]. apply parse_str_int.
Qed.

Lemma digits_no_dash (s : string) :
  all_chars is_digit s = true -> no_sep "-" s = true.
Proof.
  unfold no_sep. apply all_chars_impl. intros c Hc.
  destruct (Ascii.eqb_spec c "-") as [->|]; [discriminate|reflexivity].
Qed.

Lemma date_in_window_bounds (y m d : Z) :
  date_in_window y m d = true ->
  (1677 <= y <= 2262 /\ 1 <= m <= 12 /\ 1 <= d)%Z.
Proof.
  unfold date_in_window. rewrite !andb_true_iff, !Z.leb_le.
  intros (((((Hm1 & Hm2) & Hd1) & Hd2) & Hlo) & Hhi).
  assert (d <= 31)%Z.
  { revert Hd2. unfold days_in_month.
    repeat match goal with
           | |- context [if ?b then _ else _] => destruct b
           end; lia. }
  lia.
Qed.

Section Stamps.
Context `{P : Platform}.

(** The f-string of a date of the window reads back as that date,
    whatever the platform does elsewhere. *)
Lemma pd_Timestamp_fstring (y m d : Z) :
  date_in_window y m d = true ->
  pd_Timestamp (str_int y ++ "-" ++ str_int m ++ "-" ++ str_int d)
  = Ok {| year := y; month := m; day := d |}.
Proof.
  intros Hv. destruct (date_in_window_bounds y m d Hv) as (Hy & Hm & Hd).
  unfold pd_Timestamp. cbv zeta.
  change (str_int y ++ "-" ++ str_int m ++ "-" ++ str_int d)
    with (str_int y ++ String "-" (str_int m ++ String "-" (str_int d))).
  rewrite !split_field, split_no_sep
    by (apply digits_no_dash, str_int_digits; lia).
  rewrite !digits_field_str_int by lia.
  change (str_int y ++ String "-" (str_int m ++ String "-" (str_int d)))
    with (str_int y ++ "-" ++ str_int m ++ "-" ++ str_int d).
  rewrite String.eqb_refl, Hv. reflexivity.
Qed.

Lemma dated_stamped (x : list float) (t : Timestamp) :
  dated_in_window x t -> stamped x t.
Proof.
  intros (fy & fm & fd & pr & pev & -> & Hy & Hm & Hd & Hv).
  exists fy, fm, fd, pr, pev, (year t), (month t), (day t).
  repeat split; try assumption.
  rewrite pd_Timestamp_fstring by exact Hv. destruct t; reflexivity.
Qed.

Lemma row_stamp_stamped (x : list float) (t : Timestamp) :
  stamped x t -> row_stamp names x = Ok t.
Proof.
  intros (fy & fm & fd & pr & pev & y & m & d & -> & Hy & Hm & Hd & Ht).
  unfold row_stamp, names, row_attr.
  cbn [zip combine getitem]. cbn.
  rewrite Hy. cbn [rbind]. rewrite Hm. cbn [rbind]. rewrite Hd. cbn [rbind].
  exact Ht.
Qed.

Lemma apply_rows_stamped (rows : list (list float)) (stamps : list Timestamp) :
  Forall2 stamped rows stamps ->
  apply_rows (row_stamp names) rows = Ok stamps.
Proof.
  induction 1 as [|x t rows stamps Hx _ IH]; [reflexivity|].
  cbn [apply_rows]. rewrite (row_stamp_stamped x t Hx). cbn [rbind].
  rewrite IH. reflexivity.
Qed.

Lemma stamped_five (rows : list (list float)) (stamps : list Timestamp) :
  Forall2 stamped rows stamps -> Forall (fun x => length x = 5) rows.
Proof.
  induction 1 as [|x t rows stamps Hx _ IH]; constructor; [|exact IH].
  destruct Hx as (fy & fm & fd & pr & pev & y & m & d & -> & _). reflexivity.
Qed.

Lemma dated_all_stamped (rows : list (list float)) (stamps : list Timestamp) :
  Forall2 dated_in_window rows stamps -> Forall2 stamped rows stamps.
Proof.
  induction 1 as [|x t rows stamps Hx _ IH]; constructor;
    [apply dated_stamped, Hx|exact IH].
Qed.

End Stamps.

Lemma apply_rows_length {A B : Type} (f : A -> result B) (l : list A) (bs : list B) :
  apply_rows f l = Ok bs -> length bs = length l.
Proof.
  revert bs. induction l as [|a l IH]; intros bs; cbn [apply_rows].
  - intros [= <-]. reflexivity.
  - destruct (f a) as [b|e]; cbn [rbind]; [|discriminate].
    destruct (apply_rows f l) as [bs'|e]; cbn [rbind]; [|discriminate].
    intros [= <-]. cbn [length]. f_equal. apply IH. reflexivity.
Qed.

(** Dropping the three date columns of five-column rows leaves the
    fourth and the fifth value of each. *)
Lemma drop_date_columns (rows : list (list float)) (i : Index) :
  Forall (fun x => length x = 5) rows ->
  drop_columns ["year"; "month"; "day"]
    {| columns := names; values := rows; index := i |}
  = Ok {| columns := ["pr"; "pev"];
          values := map (fun x => [nth 3 x 0%float; nth 4 x 0%float]) rows;
          index := i |}.
Proof.
  intros Hall. unfold drop_columns. cbn [columns values index].
  change (forallb (fun l => mem l names) ["year"; "month"; "day"]) with true.
  cbv iota. f_equal. f_equal.
  apply map_ext_in. intros x Hin.
  rewrite List.Forall_forall in Hall. specialize (Hall x Hin).
  destruct x as [|a [|b [|c [|p [|e [|? x]]]]]]; try discriminate.
  reflexivity.
Qed.

Lemma five_columns (rows : list (list float)) :
  forallb (fun r => (length r =? length names)%nat) rows = true
  <-> Forall (fun x => length x = 5) rows.
Proof.
  rewrite forallb_forall, List.Forall_forall.
  split; intros H x Hin; specialize (H x Hin);
    [apply Nat.eqb_eq in H|apply Nat.eqb_eq]; exact H.
Qed.

Section WithPlatform.
Context `{P : Platform}.

(** X11. For any 2-D array whose rows carry dates of the window
    (four-digit years, 1677-09-22 to 2262-04-11), [to_xarray] returns
    the dataset whose time coordinate lists those dates in the order of
    the rows (no sorting, no removal of repeats) and whose [pr] and
    [pev] variables are the fourth and fifth columns as read: the date
    columns are truncated to integers, the data values are neither
    checked nor changed. *)
Theorem to_xarray_dated_rows (loadtxt : string -> result ndarray)
    (self : HBVForcing) (dir file : string)
    (rows : list (list float)) (stamps : list Timestamp) :
  directory self = Some dir ->
  forcing_file self = Some file ->
  loadtxt (path_join dir file) = Ok (Array2 rows) ->
  Forall2 dated_in_window rows stamps ->
  to_xarray loadtxt self
  = Ok {| coord_name := Some "time";
          coord := stamps;
          data_vars := [("pr", map (fun x => nth 3 x 0%float) rows);
                        ("pev", map (fun x => nth 4 x 0%float) rows)];
          attrs := [("title", "HBV forcing data");
                    ("history",
                     "Created by ewatercycle_HBV.forcing.HBVForcing.to_xarray()")] |}.
Proof.
  intros Hdir Hfile Hload Hrows. apply dated_all_stamped in Hrows.
  pose proof (stamped_five rows stamps Hrows) as Hfive.
  unfold to_xarray. rewrite Hdir, Hfile. cbv zeta. rewrite Hload.
  cbn [rbind make_DataFrame].
  rewrite (proj2 (five_columns rows) Hfive).
  cbn [rbind columns values index].
  rewrite (apply_rows_stamped rows stamps Hrows). cbn [rbind].
  rewrite drop_date_columns by exact Hfive.
  cbn [rbind columns values index].
  unfold make_Dataset. cbn [columns values index length seq zip combine map fst snd].
  unfold column. rewrite !map_map. reflexivity.
Qed.

(** X12. Whenever [to_xarray] returns, the directory and the file name
    were set, [np.loadtxt] gave a 2-D array of five-column rows, and the
    dataset has one timestamp per row under the name [time], exactly
    the two variables [pr] and [pev] holding the fourth and fifth
    columns, and the two fixed attributes. *)
Theorem to_xarray_result_shape (loadtxt : string -> result ndarray)
    (self : HBVForcing) (ds : Dataset) :
  to_xarray loadtxt self = Ok ds ->
  exists dir file rows,
    directory self = Some dir
    /\ forcing_file self = Some file
    /\ loadtxt (path_join dir file) = Ok (Array2 rows)
    /\ Forall (fun x => length x = 5) rows
    /\ coord_name ds = Some "time"
    /\ length (coord ds) = length rows
    /\ data_vars ds = [("pr", map (fun x => nth 3 x 0%float) rows);
                       ("pev", map (fun x => nth 4 x 0%float) rows)]
    /\ attrs ds
       = [("title", "HBV forcing data");
          ("history",
           "Created by ewatercycle_HBV.forcing.HBVForcing.to_xarray()")].
Proof.
  unfold to_xarray.
  destruct (directory self) as [dir|]; [|discriminate].
  destruct (forcing_file self) as [file|]; [|discriminate].
  cbv zeta. destruct (loadtxt (path_join dir file)) as [[v|rows]|e] eqn:Hload;
    cbn [rbind make_DataFrame]; try discriminate.
  destruct (forallb (fun r => (length r =? length names)%nat) rows) eqn:Hcols;
    cbn [rbind columns values index]; [|discriminate].
  apply five_columns in Hcols.
  destruct (apply_rows (row_stamp names) rows) as [stamps|e] eqn:Hst;
    cbn [rbind]; [|discriminate].
  rewrite drop_date_columns by exact Hcols.
  cbn [rbind columns values index].
  intros [= <-]. exists dir, file, rows.
  split; [reflexivity|]. split; [reflexivity|].
  split; [exact Hload|]. split; [exact Hcols|].
  split; [reflexivity|].
  split; [cbn [make_Dataset coord index]; apply (apply_rows_length _ _ _ Hst)|].
  split; [|reflexivity].
  unfold make_Dataset.
  cbn [columns values index length seq zip combine map fst snd data_vars].
  unfold column. rewrite !map_map. reflexivity.
Qed.

(** X13. When [pd.Timestamp] returned for every row before it (whatever
    their years) and a row's year does not convert to an integer (it is
    NaN or infinite), [to_xarray] raises the error of that conversion:
    such a row is not skipped and no dataset is returned. *)
Theorem to_xarray_unconvertible_year (loadtxt : string -> result ndarray)
    (self : HBVForcing) (dir file : string)
    (good : list (list float)) (stamps : list Timestamp)
    (fy fm fd pr pev : float) (rest : list (list float)) (e : exn) :
  directory self = Some dir ->
  forcing_file self = Some file ->
  loadtxt (path_join dir file)
  = Ok (Array2 (good ++ [fy; fm; fd; pr; pev] :: rest)%list) ->
  Forall (fun x => length x = 5) rest ->
  Forall2 stamped good stamps ->
  int_of_float fy = Raise e ->
  to_xarray loadtxt self = Raise e.
Proof.
  intros Hdir Hfile Hload Hrest Hgood Hbad.
  unfold to_xarray. rewrite Hdir, Hfile. cbv zeta. rewrite Hload.
  cbn [rbind make_DataFrame].
  assert (Hfive : Forall (fun x => length x = 5)
                    (good ++ [fy; fm; fd; pr; pev] :: rest)%list).
  { apply Forall_app. split; [exact (stamped_five good stamps Hgood)|].
    constructor; [reflexivity|exact Hrest]. }
  rewrite (proj2 (five_columns _) Hfive).
  cbn [rbind columns values index].
  assert (Hrows : apply_rows (row_stamp names)
                    (good ++ [fy; fm; fd; pr; pev] :: rest)%list = Raise e).
  { clear Hload Hfive. induction Hgood as [|x t good stamps Hx _ IH].
    - cbn [app apply_rows]. unfold row_stamp, row_attr, names.
      cbn. rewrite Hbad. reflexivity.
    - cbn [app apply_rows]. rewrite (row_stamp_stamped x t Hx). cbn [rbind].
      rewrite IH. reflexivity. }
  rewrite Hrows. reflexivity.
Qed.

End WithPlatform.

(** *** The theorems at work on example files *)

Import Examples.

Lemma to_xarray_dated_rows_witness :
  to_xarray (fun _ => Ok (Array2 unchecked_rows))
    {| directory := Some "/data/forcing"; forcing_file := Some "forcing.txt" |}
  = Ok {| coord_name := Some "time";
          coord := [{| year := 2001; month := 3; day := 1 |};
                    {| year := 2000; month := 2; day := 29 |};
                    {| year := 2000; month := 2; day := 29 |}];
          data_vars := [("pr", map (fun x => nth 3 x 0%float) unchecked_rows);
                        ("pev", map (fun x => nth 4 x 0%float) unchecked_rows)];
          attrs := [("title", "HBV forcing data");
                    ("history",
                     "Created by ewatercycle_HBV.forcing.HBVForcing.to_xarray()")] |}.
Proof.
  apply (to_xarray_dated_rows (fun _ => Ok (Array2 unchecked_rows))
           {| directory := Some "/data/forcing"; forcing_file := Some "forcing.txt" |}
           "/data/forcing" "forcing.txt" unchecked_rows);
    try reflexivity.
  unfold unchecked_rows.
  repeat (constructor; [do 5 eexists; repeat split; reflexivity|]).
  constructor.
Defined.

Lemma to_xarray_result_shape_witness :
  exists dir file rows,
    Some "/data/forcing" = Some dir
    /\ Some "forcing.txt" = Some file
    /\ Ok example_rows = Ok (Array2 rows)
    /\ Forall (fun x => length x = 5) rows
    /\ Some "time" = Some "time"
    /\ 2 = length rows
    /\ [("pr", [1.5; 0.0]%float); ("pev", [0.3; 0.5]%float)]
       = [("pr", map (fun x => nth 3 x 0%float) rows);
          ("pev", map (fun x => nth 4 x 0%float) rows)]
    /\ [("title", "HBV forcing data");
        ("history",
         "Created by ewatercycle_HBV.forcing.HBVForcing.to_xarray()")]
       = [("title", "HBV forcing data");
          ("history",
           "Created by ewatercycle_HBV.forcing.HBVForcing.to_xarray()")].
Proof.
  apply (to_xarray_result_shape (fun _ => Ok example_rows)
           {| directory := Some "/data/forcing"; forcing_file := Some "forcing.txt" |}
           {| coord_name := Some "time";
              coord := [{| year := 2000; month := 1; day := 1 |};
                        {| year := 2000; month := 1; day := 2 |}];
              data_vars := [("pr", [1.5; 0.0]%float); ("pev", [0.3; 0.5]%float)];
              attrs := [("title", "HBV forcing data");
                        ("history",
                         "Created by ewatercycle_HBV.forcing.HBVForcing.to_xarray()")] |}).
  reflexivity.
Defined.

Lemma to_xarray_unconvertible_year_witness :
  @to_xarray wide_platform
    (fun _ => Ok (Array2 [[1500; 1; 1; 2; 3]; [nan; 1; 1; 0; 0]]%float))
    {| directory := Some "/data/forcing"; forcing_file := Some "forcing.txt" |}
  = Raise (ValueError "cannot convert float NaN to integer").
Proof.
  apply (@to_xarray_unconvertible_year wide_platform
           (fun _ => Ok (Array2 [[1500; 1; 1; 2; 3]; [nan; 1; 1; 0; 0]]%float))
           {| directory := Some "/data/forcing"; forcing_file := Some "forcing.txt" |}
           "/data/forcing" "forcing.txt" [[1500; 1; 1; 2; 3]%float]
           [{| year := 1500; month := 1; day := 1 |}]
           nan 1%float 1%float 0%float 0%float []);
    try reflexivity.
  - constructor.
  - constructor; [|constructor].
    exists 1500%float, 1%float, 1%float, 2%float, 3%float, 1500%Z, 1%Z, 1%Z.
    repeat split; reflexivity.
Defined.

End ForcingExtra.
